(** * pyjnest: a shallow embedding of [src/pyjnest/__init__.py]

    The module is a client of a vendor web service: a [Connection] keeps
    the last status snapshot (the decoded JSON document) and three
    identity caches; [User], [UserSettings], [Device] and [Structure] are
    views that read the snapshot through the connection and post a few
    property updates.

    Python values are embedded as the inductive [pyval], exceptions as
    [exn], a call that may raise as [res], and code that changes the
    connection, creates an instance or sends a request as a function on
    an explicit [World]. *)

From stdpp Require Import base gmap strings list pretty.
From Stdlib Require Import ZArith Lia.

Set Warnings "-register-all".
Local Open Scope Z_scope.

(** ** Python values *)

(** Address of an object on the heap; [is] compares addresses. *)
Abbreviation addr := nat (only parsing).

(** The values the client handles: what [json] decodes a document to
    ([None], [bool], [int], [float], [str], [list], [dict] with string
    keys) and references to instances of plain classes (the views below
    are such).  A finite float is kept as [m * 2^e]; a dict is kept as
    its items in insertion order. *)
Inductive pyval : Type :=
| PNone
| PBool (b : bool)
| PInt (z : Z)
| PFloat (m e : Z)
| PStr (s : string)
| PList (l : list pyval)
| PDict (d : list (string * pyval))
| PObj (a : addr).

(** The exceptions the module raises or lets through.  A bare
    [raise RuntimeError] carries the empty message. *)
Inductive exn : Type :=
| AttributeError
| KeyError
| TypeError
| RecursionError
| ValueError (msg : string)
| RuntimeError (msg : string).

Inductive res (A : Type) : Type :=
| Ok (a : A)
| Raise (e : exn).
Arguments Ok {A} a.
Arguments Raise {A} e.

#[global] Instance res_ret : MRet res := fun A a => Ok a.
#[global] Instance res_bind : MBind res := fun A B k r =>
  match r with
  | Ok a => k a
  | Raise e => Raise e
  end.

(** The double quote character, as a one-character string. *)
Definition dq : string := String (Ascii.ascii_of_nat 34) EmptyString.

(** [s[n:]] *)
Fixpoint str_drop (n : nat) (s : string) : string :=
  match n, s with
  | O, _ => s
  | S n', String _ s' => str_drop n' s'
  | S _, EmptyString => EmptyString
  end.

(** [p in s] for two strings: [p] occurs in [s]. *)
Fixpoint is_substring (p s : string) : bool :=
  String.prefix p s ||
  match s with
  | EmptyString => false
  | String _ s' => is_substring p s'
  end.

(** [d[key]] on the items of a dict. *)
Fixpoint dict_lookup (key : string) (d : list (string * pyval)) : option pyval :=
  match d with
  | [] => None
  | (k, v) :: d' => if String.eqb k key then Some v else dict_lookup key d'
  end.

(** [v == s] for a string [s]: only an equal string compares equal. *)
Definition py_eq_str (v : pyval) (s : string) : bool :=
  match v with
  | PStr t => String.eqb t s
  | _ => false
  end.

(** [key in v] for a string [key]. *)
Definition py_contains (key : string) (v : pyval) : res bool :=
  match v with
  | PDict d => Ok (match dict_lookup key d with Some _ => true | None => false end)
  | PList l => Ok (existsb (fun x => py_eq_str x key) l)
  | PStr s => Ok (is_substring key s)
  | _ => Raise TypeError
  end.

(** [v[key]] for a string [key]. *)
Definition py_getitem (v : pyval) (key : string) : res pyval :=
  match v with
  | PDict d =>
      match dict_lookup key d with
      | Some x => Ok x
      | None => Raise KeyError
      end
  | _ => Raise TypeError
  end.

(** [isinstance(v, bool)] *)
Definition isinstance_bool (v : pyval) : bool :=
  match v with
  | PBool _ => true
  | _ => false
  end.

(** Truth value of [v], as [not v] and [if v] take it. *)
Definition py_truth (v : pyval) : bool :=
  match v with
  | PNone => false
  | PBool b => b
  | PInt z => negb (z =? 0)
  | PFloat m _ => negb (m =? 0)
  | PStr s => negb (String.eqb s "")
  | PList l => match l with [] => false | _ => true end
  | PDict d => match d with [] => false | _ => true end
  | PObj _ => true
  end.

(** [v + s] and [s + v] for a string [s]. *)
Definition py_add_str (v : pyval) (s : string) : res string :=
  match v with
  | PStr t => Ok (t +:+ s)
  | _ => Raise TypeError
  end.

Definition py_str_add (s : string) (v : pyval) : res string :=
  match v with
  | PStr t => Ok (s +:+ t)
  | _ => Raise TypeError
  end.

(** ** JSON documents *)

(** What [json.dumps] writes, kept as the document instead of its text. *)
Inductive json_value : Type :=
| JNull
| JBool (b : bool)
| JInt (z : Z)
| JFloat (m e : Z)
| JStr (s : string)
| JArr (l : list json_value)
| JObj (d : list (string * json_value)).

(** [json.dumps(v)]: a reference to an instance has no encoding. *)
Fixpoint json_dumps (v : pyval) : res json_value :=
  match v with
  | PNone => Ok JNull
  | PBool b => Ok (JBool b)
  | PInt z => Ok (JInt z)
  | PFloat m e => Ok (JFloat m e)
  | PStr s => Ok (JStr s)
  | PList l =>
      js ← (fix items (l : list pyval) : res (list json_value) :=
              match l with
              | [] => Ok []
              | x :: l' => j ← json_dumps x; js ← items l'; Ok (j :: js)
              end) l;
      Ok (JArr js)
  | PDict d =>
      js ← (fix members (d : list (string * pyval))
              : res (list (string * json_value)) :=
              match d with
              | [] => Ok []
              | (k, x) :: d' => j ← json_dumps x; js ← members d'; Ok ((k, j) :: js)
              end) d;
      Ok (JObj js)
  | PObj _ => Raise TypeError
  end.

(** ** The connection, the instances and the requests *)

(** The instance attributes of a [Connection].  [__init__] sets the
    first three and the three caches; [login] adds [transport_url],
    [access_token] and [userid]; [update_status] adds [status].  An
    attribute that has not been set yet is [None] here and reading it
    raises [AttributeError].  Each cache maps an id to the address of
    the one instance made for it. *)
Record Connection : Type := {
  username : pyval;
  password : pyval;
  headers : gmap string pyval;
  transport_url : option pyval;
  access_token : option pyval;
  userid : option pyval;
  status : option pyval;
  _users : gmap string addr;
  _devices : gmap string addr;
  _structures : gmap string addr
}.

(** The views.  Each holds its id; its [connection] attribute is the
    connection of the world it lives in. *)
Record User : Type := { user_id : string }.
Record UserSettings : Type := { settings_user_id : string }.
Record Device : Type := { device_id : string }.
Record Structure : Type := { structure_id : string }.

Inductive Instance : Type :=
| IUser (u : User)
| IUserSettings (s : UserSettings)
| IDevice (d : Device)
| IStructure (s : Structure).

(** The [data] argument of a request: a string (here always the output
    of [json.dumps]) is sent as it is, a dict is sent as a form, and
    [requests.get] is called without [data]. *)
Inductive Body : Type :=
| NoBody
| BodyJson (j : json_value)
| BodyForm (fields : list (string * pyval)).

Inductive Method : Type := GET | POST.

(** One call of [requests.get] or [requests.post]. *)
Record Request : Type := {
  method : Method;
  url : string;
  data : Body;
  req_headers : gmap string pyval
}.

(** What the call returns: [r.status_code], [r.text] and what [r.json()]
    gives (the decoded body, or the error of a body that is no JSON). *)
Record Response : Type := {
  status_code : Z;
  text : string;
  json : res pyval
}.

(** One connection, the instances that constructors have returned on it
    (the address of an instance is its position) and the requests sent so
    far, oldest first. *)
Record World : Type := {
  conn : Connection;
  heap : list Instance;
  sent : list Request
}.

(** Code that may change the world and may raise. *)
Definition M (A : Type) : Type := World -> res A * World.

#[global] Instance M_ret : MRet M := fun A a w => (Ok a, w).
#[global] Instance M_bind : MBind M := fun A B k m w =>
  match m w with
  | (Ok a, w') => k a w'
  | (Raise e, w') => (Raise e, w')
  end.

Definition raise {A} (e : exn) : M A := fun w => (Raise e, w).
Definition lift {A} (r : res A) : M A := fun w => (r, w).
(** A computation that only reads the connection. *)
Definition read {A} (f : Connection -> res A) : M A := fun w => (f (conn w), w).
(** An assignment to attributes of the connection. *)
Definition modify (f : Connection -> Connection) : M unit :=
  fun w => (Ok tt, {| conn := f (conn w); heap := heap w; sent := sent w |}).
(** A request leaves a trace in the log. *)
Definition log_request (r : Request) : M unit :=
  fun w => (Ok tt, {| conn := conn w; heap := heap w; sent := sent w ++ [r] |}).

(** [c.name] for an attribute that may not have been set. *)
Definition attribute {A} (a : option A) : res A :=
  match a with
  | Some v => Ok v
  | None => Raise AttributeError
  end.

(** Attribute access [obj.name] where [name] is a property of a class
    that defines [__getattr__]: when the property getter raises
    [AttributeError], Python calls [__getattr__(name)] instead (language
    reference, [object.__getattr__]); any other exception goes through.
    The call of [__getattr__] is delayed: it is made only then. *)
Definition property_access {A} (getter : res A) (getattr : unit -> res A) : res A :=
  match getter with
  | Raise AttributeError => getattr tt
  | r => r
  end.

(** [if name.startswith('_'): name = '$' + name[1:]] *)
Definition dollar_name (name : string) : string :=
  if String.prefix "_" name then "$" +:+ str_drop 1 name else name.

(** *** Connection *)

Definition Connection_init (username password : pyval) : Connection :=
  {| username := username;
     password := password;
     headers := <["User-Agent" := PStr "Nest/1.1.0.10 CFNetwork/548.0.4"]>
                (<["Accept-Language" := PStr "en-us"]> ∅);
     transport_url := None;
     access_token := None;
     userid := None;
     status := None;
     _users := ∅;
     _devices := ∅;
     _structures := ∅ |}.

(** [self.headers[key] = v], [self.transport_url = v], ... *)
Definition set_header (key : string) (v : pyval) (c : Connection) : Connection :=
  {| username := username c; password := password c;
     headers := <[key := v]> (headers c);
     transport_url := transport_url c; access_token := access_token c;
     userid := userid c; status := status c;
     _users := _users c; _devices := _devices c; _structures := _structures c |}.

Definition set_transport_url (v : pyval) (c : Connection) : Connection :=
  {| username := username c; password := password c; headers := headers c;
     transport_url := Some v; access_token := access_token c;
     userid := userid c; status := status c;
     _users := _users c; _devices := _devices c; _structures := _structures c |}.

Definition set_access_token (v : pyval) (c : Connection) : Connection :=
  {| username := username c; password := password c; headers := headers c;
     transport_url := transport_url c; access_token := Some v;
     userid := userid c; status := status c;
     _users := _users c; _devices := _devices c; _structures := _structures c |}.

Definition set_userid (v : pyval) (c : Connection) : Connection :=
  {| username := username c; password := password c; headers := headers c;
     transport_url := transport_url c; access_token := access_token c;
     userid := Some v; status := status c;
     _users := _users c; _devices := _devices c; _structures := _structures c |}.

Definition set_status (v : pyval) (c : Connection) : Connection :=
  {| username := username c; password := password c; headers := headers c;
     transport_url := transport_url c; access_token := access_token c;
     userid := userid c; status := Some v;
     _users := _users c; _devices := _devices c; _structures := _structures c |}.

(** [connection.name] for the name of an identity cache.  The instance
    has the three caches [__init__] made and no other. *)
Definition Connection_cache (c : Connection) (name : string) : res (gmap string addr) :=
  if String.eqb name "_users" then Ok (_users c)
  else if String.eqb name "_devices" then Ok (_devices c)
  else if String.eqb name "_structures" then Ok (_structures c)
  else Raise AttributeError.

(** [connection.name[id] = instance] for the name of an identity cache
    (reached only after [connection.name] was read). *)
Definition Connection_cache_store (name id : string) (a : addr) (c : Connection) : Connection :=
  let users := if String.eqb name "_users" then <[id := a]> (_users c) else _users c in
  let devices := if String.eqb name "_devices" then <[id := a]> (_devices c) else _devices c in
  let structures :=
    if String.eqb name "_structures" then <[id := a]> (_structures c) else _structures c in
  {| username := username c; password := password c; headers := headers c;
     transport_url := transport_url c; access_token := access_token c;
     userid := userid c; status := status c;
     _users := users; _devices := devices; _structures := structures |}.

(** A constructor call that got through [__init__]: the new instance is
    put on the heap and its address returned.  (An instance whose
    [__init__] raises is never handed to anyone.) *)
Definition allocate (i : Instance) (update : addr -> Connection -> Connection) : M addr :=
  fun w =>
    let a := length (heap w) in
    (Ok a, {| conn := update a (conn w); heap := heap w ++ [i]; sent := sent w |}).

(** ** Sample worlds *)

(** A snapshot as the service sends it: one thermostat, one user, one
    structure. *)
Definition sample_device_section : list (string * pyval) :=
  [("fan_mode", PStr "auto"); ("$version", PInt 1); ("current_humidity", PInt 40)].

Definition sample_shared_section : list (string * pyval) :=
  [("target_temperature", PFloat 43 (-1)); ("$version", PInt 7); ("name", PStr "Hall")].

Definition sample_structure_section : list (string * pyval) :=
  [("away", PBool false); ("$version", PInt 9); ("devices", PList [PStr "device.01AA"])].

Definition sample_status : pyval :=
  PDict [("device", PDict [("01AA", PDict sample_device_section)]);
         ("shared", PDict [("01AA", PDict sample_shared_section)]);
         ("user", PDict [("u1", PDict [("name", PStr "me"); ("$version", PInt 3)])]);
         ("user_settings", PDict [("u1", PDict [("lang", PStr "en"); ("$version", PInt 4)])]);
         ("link", PDict [("01AA", PDict [("structure", PStr "structure.s1")])]);
         ("structure", PDict [("s1", PDict sample_structure_section)])].

(** What the service answers to the login. *)
Definition login_reply : pyval :=
  PDict [("urls", PDict [("transport_url", PStr "https://transport.example")]);
         ("access_token", PStr "token");
         ("userid", PStr "u1")].

(** The connection of the user [me] after [login], with a given
    snapshot. *)
Definition logged_in (st : pyval) : Connection :=
  {| username := PStr "me";
     password := PStr "secret";
     headers := <["X-nl-protocol-version" := PStr "1"]>
                (<["X-nl-user-id" := PStr "u1"]>
                (<["Authorization" := PStr "Basic token"]>
                (headers (Connection_init (PStr "me") (PStr "secret")))));
     transport_url := Some (PStr "https://transport.example");
     access_token := Some (PStr "token");
     userid := Some (PStr "u1");
     status := Some st;
     _users := ∅;
     _devices := ∅;
     _structures := ∅ |}.

(** The two requests of [login]. *)
Definition login_requests : list Request :=
  [ {| method := POST;
       url := "https://home.nest.com/user/login";
       data := BodyForm [("username", PStr "me"); ("password", PStr "secret")];
       req_headers := headers (Connection_init (PStr "me") (PStr "secret")) |};
    {| method := GET;
       url := "https://transport.example/v2/mobile/user.u1";
       data := NoBody;
       req_headers := headers (logged_in sample_status) |} ].

Definition new_world : World :=
  {| conn := Connection_init (PStr "me") (PStr "secret"); heap := []; sent := [] |}.

(** The world after [Connection('me', 'secret').login()]. *)
Definition sample_world : World :=
  {| conn := logged_in sample_status; heap := []; sent := login_requests |}.

Definition sample_user : User := {| user_id := "u1" |}.
Definition sample_user_settings : UserSettings := {| settings_user_id := "u1" |}.
Definition sample_device : Device := {| device_id := "01AA" |}.
Definition sample_structure : Structure := {| structure_id := "s1" |}.

(** A snapshot whose device section has a key that begins with an
    underscore, and whose user entry has a key ['settings']. *)
Definition odd_status : pyval :=
  PDict [("device", PDict [("01AA", PDict [("_rev", PInt 3)])]);
         ("shared", PDict [("01AA", PDict [("$version", PInt 7)])]);
         ("user", PDict [("u1", PDict [("settings", PStr "mine")])])].

Definition odd_world : World :=
  {| conn := logged_in odd_status; heap := []; sent := login_requests |}.

(** Python's text for a scalar; it stands for [py_format] in the
    examples, which format strings and integers only. *)
Definition format_scalar (v : pyval) : string :=
  match v with
  | PNone => "None"
  | PBool true => "True"
  | PBool false => "False"
  | PInt z => pretty z
  | PStr s => s
  | _ => ""
  end.

(** A service that answers the login and the status request with a
    given snapshot, and every write with a given status and text. *)
Definition sample_service (st : pyval) (write_status : Z) (write_text : string)
    (r : Request) : Response :=
  match method r with
  | GET => {| status_code := 200; text := ""; json := Ok st |}
  | POST =>
      if String.eqb (url r) "https://home.nest.com/user/login"
      then {| status_code := 200; text := ""; json := Ok login_reply |}
      else {| status_code := write_status; text := write_text;
              json := Raise (ValueError "") |}
  end.

(** A snapshot with a second thermostat that has no shared entry, a
    link that names no structure, and a user who lists a structure. *)
Definition second_status : pyval :=
  PDict [("device", PDict [("01AA", PDict sample_device_section);
                           ("02BB", PDict [("fan_mode", PStr "on")])]);
         ("shared", PDict [("01AA", PDict sample_shared_section)]);
         ("user", PDict [("u1", PDict [("name", PStr "me");
                                       ("structures", PList [PStr "structure.s1"])])]);
         ("link", PDict [("01AA", PDict [("structure", PInt 5)])]);
         ("structure", PDict [("s1", PDict sample_structure_section)])].

Definition second_world : World :=
  {| conn := logged_in second_status; heap := []; sent := login_requests |}.

Definition second_device : Device := {| device_id := "02BB" |}.

(** A service that answers every request with a given document. *)
Definition answering (reply : pyval) (r : Request) : Response :=
  {| status_code := 200; text := ""; json := Ok reply |}.

(** An answer to the login that has no user id. *)
Definition short_reply : pyval :=
  PDict [("urls", PDict [("transport_url", PStr "https://transport.example")]);
         ("access_token", PStr "token")].

Definition accepting : Request -> Response := sample_service sample_status 200 "".

Section Client.

(** ['{}'.format(v)]: the text Python prints a value as. *)
Variable py_format : pyval -> string.

(** The service: its response to a request.  (A request that gets no
    response makes [requests] raise; the calls below are followed from a
    response on.) *)
Variable service : Request -> Response.

(** How deep calls may nest before Python raises [RecursionError]. *)
Variable recursion_limit : nat.

Definition send (r : Request) : M Response :=
  _ ← log_request r;
  mret (service r).

(** [requests.post(url, data = data, headers = headers)] *)
Definition requests_post (url : string) (data : Body) (headers : gmap string pyval)
  : M Response :=
  send {| method := POST; url := url; data := data; req_headers := headers |}.

(** [requests.get(url, headers = headers)] *)
Definition requests_get (url : string) (headers : gmap string pyval) : M Response :=
  send {| method := GET; url := url; data := NoBody; req_headers := headers |}.

(** [Connection.update_status] *)
Definition Connection_update_status : M unit :=
  base ← read (λ c, attribute (transport_url c));
  uid ← read (λ c, attribute (userid c));
  url ← lift (py_add_str base ("/v2/mobile/user." +:+ py_format uid));
  headers ← read (λ c, Ok (headers c));
  r ← requests_get url headers;
  st ← lift (json r);
  modify (set_status st).

(** [Connection.login].  (The [logger.debug] call has no effect on the
    connection.) *)
Definition Connection_login : M unit :=
  name ← read (λ c, Ok (username c));
  pass ← read (λ c, Ok (password c));
  let data := [("username", name); ("password", pass)] in
  headers ← read (λ c, Ok (headers c));
  r ← requests_post "https://home.nest.com/user/login" (BodyForm data) headers;
  res ← lift (json r);
  urls ← lift (py_getitem res "urls");
  transport ← lift (py_getitem urls "transport_url");
  _ ← modify (set_transport_url transport);
  token ← lift (py_getitem res "access_token");
  _ ← modify (set_access_token token);
  uid ← lift (py_getitem res "userid");
  _ ← modify (set_userid uid);
  token ← read (λ c, attribute (access_token c));
  authorization ← lift (py_str_add "Basic " token);
  _ ← modify (set_header "Authorization" (PStr authorization));
  uid ← read (λ c, attribute (userid c));
  _ ← modify (set_header "X-nl-user-id" uid);
  _ ← modify (set_header "X-nl-protocol-version" (PStr "1"));
  Connection_update_status.

(** *** User *)

(** [User.__init__] *)
Definition User_init (user_id : string) : M addr :=
  cache ← read (λ c, Connection_cache c "_users");
  match cache !! user_id with
  | Some _ => raise (RuntimeError "")
  | None =>
      _ ← read (λ c, Connection_cache c "_users");
      allocate (IUser {| user_id := user_id |}) (Connection_cache_store "_users" user_id)
  end.

(** [User.get] *)
Definition User_get (user_id : string) : M addr :=
  cache ← read (λ c, Connection_cache c "_users");
  match cache !! user_id with
  | Some a => mret a
  | None => User_init user_id
  end.

(** The property [User.user] *)
Definition User_user (c : Connection) (self : User) : res pyval :=
  st ← attribute (status c);
  users ← py_getitem st "user";
  py_getitem users (user_id self).

(** [User.__getattr__] *)
Fixpoint User_getattr (depth : nat) (c : Connection) (self : User) (name : string)
  : res pyval :=
  match depth with
  | O => Raise RecursionError
  | S depth' =>
      let name := dollar_name name in
      let self_user (_ : unit) :=
        property_access (User_user c self) (λ _, User_getattr depth' c self "user") in
      u ← self_user tt;
      found ← py_contains name u;
      if found : bool then u ← self_user tt; py_getitem u name
      else Raise AttributeError
  end.

(** *** UserSettings *)

(** [UserSettings.__init__] *)
Definition UserSettings_init (user_id : string) : M addr :=
  cache ← read (λ c, Connection_cache c "_user_settings");
  match cache !! user_id with
  | Some _ => raise (RuntimeError "")
  | None =>
      _ ← read (λ c, Connection_cache c "_user_settings");
      allocate (IUserSettings {| settings_user_id := user_id |})
               (Connection_cache_store "_user_settings" user_id)
  end.

(** [UserSettings.get] *)
Definition UserSettings_get (user_id : string) : M addr :=
  cache ← read (λ c, Connection_cache c "_user_settings");
  match cache !! user_id with
  | Some a => mret a
  | None => UserSettings_init user_id
  end.

(** The property [UserSettings.user_settings] *)
Definition UserSettings_user_settings (c : Connection) (self : UserSettings) : res pyval :=
  st ← attribute (status c);
  settings ← py_getitem st "user_settings";
  py_getitem settings (settings_user_id self).

(** [UserSettings.__getattr__] *)
Fixpoint UserSettings_getattr (depth : nat) (c : Connection) (self : UserSettings)
  (name : string) : res pyval :=
  match depth with
  | O => Raise RecursionError
  | S depth' =>
      let name := dollar_name name in
      let self_user_settings (_ : unit) :=
        property_access (UserSettings_user_settings c self)
                        (λ _, UserSettings_getattr depth' c self "user_settings") in
      u ← self_user_settings tt;
      found ← py_contains name u;
      if found : bool then u ← self_user_settings tt; py_getitem u name
      else Raise AttributeError
  end.

(** The getter of the property [User.settings] *)
Definition User_settings (self : User) : M pyval :=
  a ← UserSettings_get (user_id self);
  mret (PObj a).

(** The attribute access [user.settings] *)
Definition User_attr_settings (self : User) : M pyval :=
  fun w =>
    match User_settings self w with
    | (Raise AttributeError, w') =>
        (User_getattr recursion_limit (conn w') self "settings", w')
    | r => r
    end.

(** *** Device *)

(** [Device.clean_id] *)
Definition Device_clean_id (device_id : string) : string :=
  if String.prefix "device." device_id then str_drop 7 device_id else device_id.

(** [self.device_id not in self.connection.status[section]] *)
Definition missing_from_status (section id : string) (c : Connection) : res bool :=
  st ← attribute (status c);
  entries ← py_getitem st section;
  found ← py_contains id entries;
  mret (negb found).

(** [Device.__init__] *)
Definition Device_init (device_id : string) : M addr :=
  let device_id := Device_clean_id device_id in
  cache ← read (λ c, Connection_cache c "_devices");
  match cache !! device_id with
  | Some _ => raise (RuntimeError "")
  | None =>
      missing ← read (missing_from_status "device" device_id);
      if missing : bool then raise (RuntimeError "")
      else
        missing ← read (missing_from_status "shared" device_id);
        if missing : bool then raise (RuntimeError "")
        else
          _ ← read (λ c, Connection_cache c "_devices");
          allocate (IDevice {| device_id := device_id |})
                   (Connection_cache_store "_devices" device_id)
  end.

(** [Device.get] *)
Definition Device_get (device_id : string) : M addr :=
  let device_id := Device_clean_id device_id in
  cache ← read (λ c, Connection_cache c "_devices");
  match cache !! device_id with
  | Some a => mret a
  | None => Device_init device_id
  end.

(** The property [Device.device] *)
Definition Device_device (c : Connection) (self : Device) : res pyval :=
  st ← attribute (status c);
  devices ← py_getitem st "device";
  py_getitem devices (device_id self).

(** The property [Device.shared] *)
Definition Device_shared (c : Connection) (self : Device) : res pyval :=
  st ← attribute (status c);
  shared ← py_getitem st "shared";
  py_getitem shared (device_id self).

(** [Device.__getattr__] *)
Fixpoint Device_getattr (depth : nat) (c : Connection) (self : Device) (name : string)
  : res pyval :=
  match depth with
  | O => Raise RecursionError
  | S depth' =>
      let name := dollar_name name in
      let self_device (_ : unit) :=
        property_access (Device_device c self)
                        (λ _, Device_getattr depth' c self "device") in
      let self_shared (_ : unit) :=
        property_access (Device_shared c self)
                        (λ _, Device_getattr depth' c self "shared") in
      d ← self_device tt;
      found ← py_contains name d;
      if found : bool then d ← self_device tt; py_getitem d name
      else
        s ← self_shared tt;
        found ← py_contains name s;
        if found : bool then s ← self_shared tt; py_getitem s name
        else Raise AttributeError
  end.

(** The attribute accesses [self.device] and [self.shared] *)
Definition Device_attr_device (c : Connection) (self : Device) : res pyval :=
  property_access (Device_device c self)
                  (λ _, Device_getattr recursion_limit c self "device").

Definition Device_attr_shared (c : Connection) (self : Device) : res pyval :=
  property_access (Device_shared c self)
                  (λ _, Device_getattr recursion_limit c self "shared").

(** The getter of the property [Device.fan_mode] *)
Definition Device_fan_mode (c : Connection) (self : Device) : res pyval :=
  d ← Device_attr_device c self;
  py_getitem d "fan_mode".

(** The attribute access [self.fan_mode] *)
Definition Device_attr_fan_mode (c : Connection) (self : Device) : res pyval :=
  property_access (Device_fan_mode c self)
                  (λ _, Device_getattr recursion_limit c self "fan_mode").

(** The setter of the property [Device.fan_mode] *)
Definition Device_fan_mode_setter (self : Device) (value : pyval) : M unit :=
  if negb (py_eq_str value "auto" || py_eq_str value "on")
  then raise (ValueError ("fan mode must be " +:+ dq +:+ "auto" +:+ dq +:+ " or "
                          +:+ dq +:+ "on" +:+ dq))
  else
    let data := PDict [("fan_mode", value)] in
    headers ← read (λ c, Ok (headers c));
    let headers := <["Content-Type" := PStr "application/json"]> headers in
    base ← read (λ c, attribute (transport_url c));
    url ← lift (py_add_str base ("/v2/put/device." +:+ device_id self));
    body ← lift (json_dumps data);
    r ← requests_post url (BodyJson body) headers;
    if status_code r =? 200 then mret tt
    else raise (RuntimeError ("Could not set the fan mode: " +:+ dq +:+ text r +:+ dq)).

(** [{'auto': 'on', 'on': 'auto'}[v]]: a list or a dict cannot be a key. *)
Definition fan_mode_opposite (v : pyval) : res pyval :=
  match v with
  | PStr s =>
      match dict_lookup s [("auto", PStr "on"); ("on", PStr "auto")] with
      | Some x => Ok x
      | None => Raise KeyError
      end
  | PList _ | PDict _ => Raise TypeError
  | _ => Raise KeyError
  end.

(** [Device.toggle_fan_mode] *)
Definition Device_toggle_fan_mode (self : Device) : M unit :=
  current ← read (λ c, Device_attr_fan_mode c self);
  value ← lift (fan_mode_opposite current);
  Device_fan_mode_setter self value.


(** The setter of the property [Device.target_temperature] *)
Definition Device_target_temperature_setter (self : Device) (value : pyval) : M unit :=
  let data := PDict [("target_change_pending", PBool true);
                     ("target_temperature", value)] in
  headers ← read (λ c, Ok (headers c));
  shared ← read (λ c, Device_attr_shared c self);
  version ← lift (py_getitem shared "$version");
  let headers := <["X-nl-base-version" := PStr (py_format version)]> headers in
  let headers := <["Content-Type" := PStr "application/json"]> headers in
  base ← read (λ c, attribute (transport_url c));
  url ← lift (py_add_str base ("/v2/put/shared." +:+ device_id self));
  body ← lift (json_dumps data);
  r ← requests_post url (BodyJson body) headers;
  if status_code r =? 200 then mret tt
  else raise (RuntimeError ("Could not set the target temperature: "
                            +:+ dq +:+ text r +:+ dq)).

(** *** Structure *)

(** [Structure.clean_id] *)
Definition Structure_clean_id (structure_id : string) : string :=
  if String.prefix "structure." structure_id then str_drop 10 structure_id
  else structure_id.

(** [Structure.__init__] *)
Definition Structure_init (structure_id : string) : M addr :=
  let structure_id := Structure_clean_id structure_id in
  missing ← read (missing_from_status "structure" structure_id);
  if missing : bool then raise (RuntimeError "")
  else
    cache ← read (λ c, Connection_cache c "_structures");
    match cache !! structure_id with
    | Some _ => raise (RuntimeError "")
    | None =>
        _ ← read (λ c, Connection_cache c "_structures");
        allocate (IStructure {| structure_id := structure_id |})
                 (Connection_cache_store "_structures" structure_id)
    end.

(** [Structure.get] *)
Definition Structure_get (structure_id : string) : M addr :=
  let structure_id := Structure_clean_id structure_id in
  cache ← read (λ c, Connection_cache c "_structures");
  match cache !! structure_id with
  | Some a => mret a
  | None => Structure_init structure_id
  end.

(** The property [Structure.structure] *)
Definition Structure_structure (c : Connection) (self : Structure) : res pyval :=
  st ← attribute (status c);
  structures ← py_getitem st "structure";
  py_getitem structures (structure_id self).

(** [Structure.__getattr__] *)
Fixpoint Structure_getattr (depth : nat) (c : Connection) (self : Structure)
  (name : string) : res pyval :=
  match depth with
  | O => Raise RecursionError
  | S depth' =>
      let name := dollar_name name in
      let self_structure (_ : unit) :=
        property_access (Structure_structure c self)
                        (λ _, Structure_getattr depth' c self "structure") in
      s ← self_structure tt;
      found ← py_contains name s;
      if found : bool then s ← self_structure tt; py_getitem s name
      else Raise AttributeError
  end.

(** The attribute access [self.structure] *)
Definition Structure_attr_structure (c : Connection) (self : Structure) : res pyval :=
  property_access (Structure_structure c self)
                  (λ _, Structure_getattr recursion_limit c self "structure").

(** The getter of the property [Structure.away] *)
Definition Structure_away (c : Connection) (self : Structure) : res pyval :=
  s ← Structure_attr_structure c self;
  py_getitem s "away".

(** The attribute access [self.away] *)
Definition Structure_attr_away (c : Connection) (self : Structure) : res pyval :=
  property_access (Structure_away c self)
                  (λ _, Structure_getattr recursion_limit c self "away").

(** The setter of the property [Structure.away].  The dict literal bound
    to [data] ends after its first member (line 301 closes it with a
    brace); the two members on lines 302 and 303 are outside it and are
    no part of any statement.  [data] is handed to [requests.post] as the
    dict, without [json.dumps]. *)
Definition Structure_away_setter (self : Structure) (value : pyval) : M unit :=
  if negb (isinstance_bool value)
  then raise (ValueError "Away can only be set to True or False")
  else
    let data := [("away", value)] in
    headers ← read (λ c, Ok (headers c));
    structure ← read (λ c, Structure_attr_structure c self);
    version ← lift (py_getitem structure "$version");
    let headers := <["X-nl-base-version" := PStr (py_format version)]> headers in
    let headers := <["Content-Type" := PStr "application/json"]> headers in
    base ← read (λ c, attribute (transport_url c));
    url ← lift (py_add_str base ("/v2/put/structure." +:+ structure_id self));
    r ← requests_post url (BodyForm data) headers;
    if status_code r =? 200 then mret tt
    else raise (RuntimeError ("Could not set away: " +:+ dq +:+ text r +:+ dq)).

(** [Structure.toggle_away] *)
Definition Structure_toggle_away (self : Structure) : M unit :=
  current ← read (λ c, Structure_attr_away c self);
  Structure_away_setter self (PBool (negb (py_truth current))).

(** *** The remaining properties of the classes *)

(** [v.keys()] and [v.items()]: only a dict has them. *)
Definition py_keys (v : pyval) : res (list string) :=
  match v with
  | PDict d => Ok (d.*1)
  | _ => Raise AttributeError
  end.

Definition py_items (v : pyval) : res (list (string * pyval)) :=
  match v with
  | PDict d => Ok d
  | _ => Raise AttributeError
  end.

(** The one-character strings of a string. *)
Fixpoint str_chars (s : string) : list string :=
  match s with
  | EmptyString => []
  | String a s' => String a EmptyString :: str_chars s'
  end.

(** [for x in v]: the elements of a list, the keys of a dict, the
    characters of a string. *)
Definition py_iter (v : pyval) : res (list pyval) :=
  match v with
  | PList l => Ok l
  | PDict d => Ok (PStr <$> d.*1)
  | PStr s => Ok (PStr <$> str_chars s)
  | _ => Raise TypeError
  end.

(** The receiver of [id.startswith(...)] in [clean_id], for the values
    of a snapshot (a JSON document): only a string has the method. *)
Definition py_str (v : pyval) : res string :=
  match v with
  | PStr s => Ok s
  | _ => Raise AttributeError
  end.

(** [d[k] = v] on the items of a dict: a key that is there keeps its
    place, a new key goes to the end. *)
Fixpoint dict_set {V} (k : string) (v : V) (d : list (string * V)) : list (string * V) :=
  match d with
  | [] => [(k, v)]
  | (k', v') :: d' =>
      if String.eqb k' k then (k', v) :: d' else (k', v') :: dict_set k v d'
  end.

(** The dict a comprehension builds from the items it goes through. *)
Definition dict_of {V} (items : list (string * V)) : list (string * V) :=
  foldl (λ d kv, dict_set kv.1 kv.2 d) [] items.

(** The body of a comprehension, run for each element in turn. *)
Fixpoint for_each {A B} (f : A -> M B) (l : list A) : M (list B) :=
  match l with
  | [] => mret []
  | x :: l' => y ← f x; ys ← for_each f l'; mret (y :: ys)
  end.

(** The property [Connection.devices] *)
Definition Connection_devices : M (list (string * addr)) :=
  st ← read (λ c, attribute (status c));
  section ← lift (py_getitem st "device");
  keys ← lift (py_keys section);
  items ← for_each (λ device_id, a ← Device_get device_id; mret (device_id, a)) keys;
  mret (dict_of items).

(** The property [Connection.links] *)
Definition Connection_links : M (list (addr * addr)) :=
  st ← read (λ c, attribute (status c));
  section ← lift (py_getitem st "link");
  items ← lift (py_items section);
  for_each (λ item : string * pyval,
              d ← Device_get item.1;
              sid ← lift (py_getitem item.2 "structure");
              sid ← lift (py_str sid);
              s ← Structure_get sid;
              mret (d, s)) items.

(** The property [Connection.users] *)
Definition Connection_users : M (list (string * addr)) :=
  st ← read (λ c, attribute (status c));
  section ← lift (py_getitem st "user");
  keys ← lift (py_keys section);
  items ← for_each (λ user_id, a ← User_get user_id; mret (user_id, a)) keys;
  mret (dict_of items).

(** The property [User.structures] *)
Definition User_structures (self : User) : M (list (string * addr)) :=
  ids ← read (λ c, st ← attribute (status c);
                   users ← py_getitem st "user";
                   u ← py_getitem users (user_id self);
                   py_getitem u "structures");
  ids ← lift (py_iter ids);
  items ← for_each (λ v, id ← lift (py_str v);
                         a ← Structure_get id;
                         mret (Structure_clean_id id, a)) ids;
  mret (dict_of items).

(** The property [UserSettings.user] *)
Definition UserSettings_user (self : UserSettings) : M addr :=
  User_get (settings_user_id self).

(** The getter of the property [Device.structure] *)
Definition Device_structure (self : Device) : M pyval :=
  sid ← read (λ c, st ← attribute (status c);
                   links ← py_getitem st "link";
                   link ← py_getitem links (device_id self);
                   py_getitem link "structure");
  sid ← lift (py_str sid);
  a ← Structure_get sid;
  mret (PObj a).

(** The attribute access [device.structure] *)
Definition Device_attr_structure (self : Device) : M pyval :=
  fun w =>
    match Device_structure self w with
    | (Raise AttributeError, w') =>
        (Device_getattr recursion_limit (conn w') self "structure", w')
    | r => r
    end.

(** [Structure.__repr__] *)
Definition Structure_repr (self : Structure) : string :=
  "Structure('" +:+ structure_id self +:+ "')".

(** The getter of the property [Structure.devices] *)
Definition Structure_devices (self : Structure) : M (list (string * addr)) :=
  section ← read (λ c, Structure_attr_structure c self);
  ids ← lift (py_getitem section "devices");
  ids ← lift (py_iter ids);
  items ← for_each (λ v, id ← lift (py_str v);
                         a ← Device_get id;
                         mret (Device_clean_id id, a)) ids;
  mret (dict_of items).

(** ** Vocabulary of the properties *)

(** What a response does to a write: [None] on 200, otherwise a
    [RuntimeError] whose message quotes the response body. *)
Definition write_outcome (what : string) (r : Response) : res unit :=
  if status_code r =? 200 then Ok tt
  else Raise (RuntimeError (what +:+ dq +:+ text r +:+ dq)).

(** The request [Device.target_temperature = value] posts. *)
Definition target_temperature_request (c : Connection) (self : Device)
    (base : string) (version : pyval) (j : json_value) : Request :=
  {| method := POST;
     url := base +:+ "/v2/put/shared." +:+ device_id self;
     data := BodyJson (JObj [("target_change_pending", JBool true);
                             ("target_temperature", j)]);
     req_headers := <["Content-Type" := PStr "application/json"]>
                    (<["X-nl-base-version" := PStr (py_format version)]> (headers c)) |}.

(** The request [Structure.away = value] posts. *)
Definition away_request (c : Connection) (self : Structure)
    (base : string) (version : pyval) (value : pyval) : Request :=
  {| method := POST;
     url := base +:+ "/v2/put/structure." +:+ structure_id self;
     data := BodyForm [("away", value)];
     req_headers := <["Content-Type" := PStr "application/json"]>
                    (<["X-nl-base-version" := PStr (py_format version)]> (headers c)) |}.

(** The request [Device.fan_mode = value] posts. *)
Definition fan_mode_request (c : Connection) (self : Device)
    (base : string) (mode : string) : Request :=
  {| method := POST;
     url := base +:+ "/v2/put/device." +:+ device_id self;
     data := BodyJson (JObj [("fan_mode", JStr mode)]);
     req_headers := <["Content-Type" := PStr "application/json"]> (headers c) |}.

Definition posted (req : Request) (w : World) : World :=
  {| conn := conn w; heap := heap w; sent := sent w ++ [req] |}.

(** Lookup of a key in one section, then in a second one. *)
Definition lookup_or_AttributeError (key : string) (sections : list (list (string * pyval)))
  : res pyval :=
  match omap (dict_lookup key) sections with
  | v :: _ => Ok v
  | [] => Raise AttributeError
  end.

(** The three kinds of view a connection caches. *)
Inductive kind : Type := KUser | KDevice | KStructure.

#[global] Instance kind_eq_dec : EqDecision kind.
Proof. solve_decision. Defined.

Definition kind_cache (k : kind) (c : Connection) : gmap string addr :=
  match k with
  | KUser => _users c
  | KDevice => _devices c
  | KStructure => _structures c
  end.

Definition kind_name (k : kind) : string :=
  match k with
  | KUser => "_users"
  | KDevice => "_devices"
  | KStructure => "_structures"
  end.

Definition kind_instance (k : kind) (id : string) : Instance :=
  match k with
  | KUser => IUser {| user_id := id |}
  | KDevice => IDevice {| device_id := id |}
  | KStructure => IStructure {| structure_id := id |}
  end.

(** Every instance on the heap is the one its cache has for its id, and
    every cache entry is the address of an instance of that kind and id. *)
Definition identity_invariant (w : World) : Prop :=
  (forall a i, heap w !! a = Some i ->
     exists k id, i = kind_instance k id /\ kind_cache k (conn w) !! id = Some a) /\
  (forall k id a, kind_cache k (conn w) !! id = Some a ->
     heap w !! a = Some (kind_instance k id)).

(** The world after a constructor registered the new instance. *)
Definition created (k : kind) (id : string) (w : World) : World :=
  {| conn := Connection_cache_store (kind_name k) id (length (heap w)) (conn w);
     heap := heap w ++ [kind_instance k id];
     sent := sent w |}.

(** What a constructor call comes to: it raises and changes nothing, or
    the id was not cached and the new instance is registered under it. *)
Definition constructs (k : kind) (id : string) (w : World) (out : res addr * World)
  : Prop :=
  (exists e, out = (Raise e, w)) \/
  (kind_cache k (conn w) !! id = None /\ out = (Ok (length (heap w)), created k id w)).

(** The calls a client can make on a connection and its views.  (The
    remaining properties, such as [Connection.devices] and
    [Device.structure], read the snapshot and call [get].) *)
Inductive call : Type :=
| CallLogin
| CallUpdateStatus
| CallUserGet (id : string)
| CallUser (id : string)
| CallUserSettingsGet (id : string)
| CallUserSettings (id : string)
| CallDeviceGet (id : string)
| CallDevice (id : string)
| CallStructureGet (id : string)
| CallStructure (id : string)
| GetSettings (self : User)
| SetFanMode (self : Device) (value : pyval)
| ToggleFanMode (self : Device)
| SetTargetTemperature (self : Device) (value : pyval)
| SetAway (self : Structure) (value : pyval)
| ToggleAway (self : Structure).

(** The world after a call, whether it returned or raised. *)
Definition run (c : call) (w : World) : World :=
  match c with
  | CallLogin => (Connection_login w).2
  | CallUpdateStatus => (Connection_update_status w).2
  | CallUserGet id => (User_get id w).2
  | CallUser id => (User_init id w).2
  | CallUserSettingsGet id => (UserSettings_get id w).2
  | CallUserSettings id => (UserSettings_init id w).2
  | CallDeviceGet id => (Device_get id w).2
  | CallDevice id => (Device_init id w).2
  | CallStructureGet id => (Structure_get id w).2
  | CallStructure id => (Structure_init id w).2
  | GetSettings self => (User_attr_settings self w).2
  | SetFanMode self value => (Device_fan_mode_setter self value w).2
  | ToggleFanMode self => (Device_toggle_fan_mode self w).2
  | SetTargetTemperature self value => (Device_target_temperature_setter self value w).2
  | SetAway self value => (Structure_away_setter self value w).2
  | ToggleAway self => (Structure_toggle_away self w).2
  end.

(** The worlds a client can get to: a new connection, and any world
    after a call. *)
Inductive reachable : World -> Prop :=
| reachable_new (username password : pyval) :
    reachable {| conn := Connection_init username password; heap := []; sent := [] |}
| reachable_call (w : World) (c : call) :
    reachable w -> reachable (run c w).

(** Code that creates no instance and leaves the caches as they are. *)
Definition keeps_instances {A} (m : M A) : Prop :=
  forall w, heap (m w).2 = heap w /\
            forall k, kind_cache k (conn (m w).2) = kind_cache k (conn w).

(** *** Vocabulary of the further properties *)

(** The snapshot has the section, a mapping, and the mapping has no
    entry for the id. *)
Definition section_lacks (c : Connection) (section id : string) : Prop :=
  exists st entries,
    status c = Some st /\
    py_getitem st section = Ok (PDict entries) /\
    dict_lookup id entries = None.

(** [w'] has every cache entry of [w] and every instance of [w], at the
    same address. *)
Definition extends (w w' : World) : Prop :=
  (forall k id a, kind_cache k (conn w) !! id = Some a ->
     kind_cache k (conn w') !! id = Some a) /\
  (forall a i, heap w !! a = Some i -> heap w' !! a = Some i).

(** Code that keeps the cache entries and the instances there are, and
    the identity invariant. *)
Definition grows {A} (m : M A) : Prop :=
  forall w,
    extends w (m w).2 /\
    (identity_invariant w -> identity_invariant (m w).2).

(** The request of [Connection.update_status]. *)
Definition status_request (c : Connection) (base : string) (uid : pyval) : Request :=
  {| method := GET;
     url := base +:+ "/v2/mobile/user." +:+ py_format uid;
     data := NoBody;
     req_headers := headers c |}.

(** The first request of [Connection.login]. *)
Definition login_request (c : Connection) : Request :=
  {| method := POST;
     url := "https://home.nest.com/user/login";
     data := BodyForm [("username", username c); ("password", password c)];
     req_headers := headers c |}.

(** The headers of a connection after [login]. *)
Definition login_headers (c : Connection) (token : string) (uid : pyval)
  : gmap string pyval :=
  <["X-nl-protocol-version" := PStr "1"]>
  (<["X-nl-user-id" := uid]>
  (<["Authorization" := PStr ("Basic " +:+ token)]> (headers c))).

(** The calls that write to the service. *)
Definition is_write (c : call) : bool :=
  match c with
  | SetFanMode _ _ | ToggleFanMode _ | SetTargetTemperature _ _
  | SetAway _ _ | ToggleAway _ => true
  | _ => false
  end.

(** Code that leaves the snapshot as it is. *)
Definition keeps_snapshot {A} (m : M A) : Prop :=
  forall w, status (conn (m w).2) = status (conn w).

(** The body of the comprehension of [Connection.links]. *)
Definition link_pair (item : string * pyval) : M (addr * addr) :=
  d ← Device_get item.1;
  sid ← lift (py_getitem item.2 "structure");
  sid ← lift (py_str sid);
  s ← Structure_get sid;
  mret (d, s).

(** In the world [w], the pair holds the cached device and the cached
    structure of the link. *)
Definition linked (w : World) (item : string * pyval) (pair : addr * addr) : Prop :=
  exists sid,
    py_getitem item.2 "structure" = Ok (PStr sid) /\
    _devices (conn w) !! Device_clean_id item.1 = Some pair.1 /\
    _structures (conn w) !! Structure_clean_id sid = Some pair.2.

(** The calls of the client, with the remaining properties. *)
Inductive action : Type :=
| Call (c : call)
| GetDevices
| GetLinks
| GetUsers
| GetUserStructures (self : User)
| GetSettingsUser (self : UserSettings)
| GetDeviceStructure (self : Device)
| GetStructureDevices (self : Structure).

Definition perform (a : action) (w : World) : World :=
  match a with
  | Call c => run c w
  | GetDevices => (Connection_devices w).2
  | GetLinks => (Connection_links w).2
  | GetUsers => (Connection_users w).2
  | GetUserStructures self => (User_structures self w).2
  | GetSettingsUser self => (UserSettings_user self w).2
  | GetDeviceStructure self => (Device_attr_structure self w).2
  | GetStructureDevices self => (Structure_devices self w).2
  end.

(** The world after a sequence of actions. *)
Definition perform_all (actions : list action) (w : World) : World :=
  foldl (λ w a, perform a w) w actions.

(** ** Properties *)

Lemma py_eq_str_true (v : pyval) (s : string) :
  py_eq_str v s = true <-> v = PStr s.
Proof.
  destruct v; simpl; try (split; [discriminate | intros [=]]).
  rewrite String.eqb_eq. split; [intros -> | intros [= ->]]; reflexivity.
Qed.

Lemma py_eq_str_false (v : pyval) (s : string) :
  v ≠ PStr s -> py_eq_str v s = false.
Proof.
  intros Hne. destruct (py_eq_str v s) eqn:E; [|reflexivity].
  apply py_eq_str_true in E. contradiction.
Qed.



(** The three setters either stop before [requests.post], leaving the
    world as it was, or post one request and end as the response says. *)
Lemma Device_fan_mode_setter_cases (self : Device) (value : pyval) (w : World) :
  (exists e, Device_fan_mode_setter self value w = (Raise e, w)) \/
  (exists req,
     Device_fan_mode_setter self value w =
       (write_outcome "Could not set the fan mode: " (service req),
        {| conn := conn w; heap := heap w; sent := sent w ++ [req] |})).
Proof.
  unfold Device_fan_mode_setter.
  destruct (negb _); [left; eexists; reflexivity|].
  unfold requests_post, send, mbind, M_bind, read, lift, log_request, mret, M_ret, raise;
    simpl.
  destruct (attribute (transport_url (conn w))) as [base|e]; [|left; eexists; reflexivity].
  destruct (py_add_str base _) as [u|e]; [|left; eexists; reflexivity].
  destruct (json_dumps value) as [j|e]; simpl; [|left; eexists; reflexivity].
  right.
  match goal with |- context [service ?r] => exists r end.
  unfold write_outcome. destruct (status_code _ =? 200); reflexivity.
Qed.

Lemma Device_target_temperature_setter_cases (self : Device) (value : pyval) (w : World) :
  (exists e, Device_target_temperature_setter self value w = (Raise e, w)) \/
  (exists req,
     Device_target_temperature_setter self value w =
       (write_outcome "Could not set the target temperature: " (service req),
        {| conn := conn w; heap := heap w; sent := sent w ++ [req] |})).
Proof.
  unfold Device_target_temperature_setter.
  unfold requests_post, send, mbind, M_bind, read, lift, log_request, mret, M_ret, raise;
    simpl.
  destruct (Device_attr_shared (conn w) self) as [shared|e]; [|left; eexists; reflexivity].
  destruct (py_getitem shared _) as [version|e]; [|left; eexists; reflexivity].
  destruct (attribute (transport_url (conn w))) as [base|e]; [|left; eexists; reflexivity].
  destruct (py_add_str base _) as [u|e]; [|left; eexists; reflexivity].
  destruct (json_dumps value) as [j|e]; simpl; [|left; eexists; reflexivity].
  right.
  match goal with |- context [service ?r] => exists r end.
  unfold write_outcome. destruct (status_code _ =? 200); reflexivity.
Qed.

Lemma Structure_away_setter_cases (self : Structure) (value : pyval) (w : World) :
  (exists e, Structure_away_setter self value w = (Raise e, w)) \/
  (exists req,
     Structure_away_setter self value w =
       (write_outcome "Could not set away: " (service req),
        {| conn := conn w; heap := heap w; sent := sent w ++ [req] |})).
Proof.
  unfold Structure_away_setter.
  destruct (negb _); [left; eexists; reflexivity|].
  unfold requests_post, send, mbind, M_bind, read, lift, log_request, mret, M_ret, raise;
    simpl.
  destruct (Structure_attr_structure (conn w) self) as [structure|e];
    [|left; eexists; reflexivity].
  destruct (py_getitem structure _) as [version|e]; [|left; eexists; reflexivity].
  destruct (attribute (transport_url (conn w))) as [base|e]; [|left; eexists; reflexivity].
  destruct (py_add_str base _) as [u|e]; [|left; eexists; reflexivity].
  right.
  match goal with |- context [service ?r] => exists r end.
  unfold write_outcome. destruct (status_code _ =? 200); reflexivity.
Qed.





(** C4.  Assigning [Device.fan_mode] a value that is neither ['auto'] nor
    ['on'] raises [ValueError]; the world after it is the world before
    it: no request was posted and the connection is unchanged. *)
Theorem fan_mode_rejects_other_values (self : Device) (value : pyval) (w : World) :
  value ≠ PStr "auto" ->
  value ≠ PStr "on" ->
  Device_fan_mode_setter self value w =
    (Raise (ValueError ("fan mode must be " +:+ dq +:+ "auto" +:+ dq +:+ " or "
                        +:+ dq +:+ "on" +:+ dq)), w) /\
  sent (Device_fan_mode_setter self value w).2 = sent w /\
  conn (Device_fan_mode_setter self value w).2 = conn w.
Proof.
  intros Hauto Hon.
  assert (Device_fan_mode_setter self value w =
            (Raise (ValueError ("fan mode must be " +:+ dq +:+ "auto" +:+ dq +:+ " or "
                                +:+ dq +:+ "on" +:+ dq)), w)) as ->.
  { unfold Device_fan_mode_setter.
    rewrite (py_eq_str_false _ _ Hauto), (py_eq_str_false _ _ Hon). reflexivity. }
  repeat split.
Qed.


Lemma property_access_ok {A} (getter : res A) (getattr : unit -> res A) (a : A) :
  getter = Ok a -> property_access getter getattr = Ok a.
Proof. intros ->. reflexivity. Qed.

Lemma Device_fan_mode_setter_posts (self : Device) (mode : string) (w : World)
    (base : string) :
  mode = "auto" \/ mode = "on" ->
  transport_url (conn w) = Some (PStr base) ->
  let req := fan_mode_request (conn w) self base mode in
  Device_fan_mode_setter self (PStr mode) w =
    (write_outcome "Could not set the fan mode: " (service req), posted req w).
Proof.
  intros Hmode Hbase req. unfold Device_fan_mode_setter.
  replace (py_eq_str (PStr mode) "auto" || py_eq_str (PStr mode) "on") with true
    by (destruct Hmode as [-> | ->]; reflexivity).
  unfold requests_post, send, mbind, M_bind, read, lift, log_request, mret, M_ret, raise;
    simpl.
  rewrite Hbase; simpl. fold req. unfold write_outcome.
  destruct (status_code _ =? 200); reflexivity.
Qed.

Lemma Device_target_temperature_setter_posts (self : Device) (value : pyval)
    (w : World) (shared version : pyval) (base : string) (j : json_value) :
  Device_shared (conn w) self = Ok shared ->
  py_getitem shared "$version" = Ok version ->
  transport_url (conn w) = Some (PStr base) ->
  json_dumps value = Ok j ->
  let req := target_temperature_request (conn w) self base version j in
  Device_target_temperature_setter self value w =
    (write_outcome "Could not set the target temperature: " (service req),
     posted req w).
Proof.
  intros Hshared Hversion Hbase Hjson req. unfold Device_target_temperature_setter.
  unfold requests_post, send, mbind, M_bind, read, lift, log_request, mret, M_ret, raise;
    simpl.
  unfold Device_attr_shared. rewrite (property_access_ok _ _ _ Hshared).
  rewrite Hversion, Hbase; simpl. rewrite Hjson; simpl. fold req.
  unfold write_outcome. destruct (status_code _ =? 200); reflexivity.
Qed.

Lemma Device_target_temperature_setter_unencodable (self : Device) (value : pyval)
    (w : World) (shared version : pyval) (base : string) (e : exn) :
  Device_shared (conn w) self = Ok shared ->
  py_getitem shared "$version" = Ok version ->
  transport_url (conn w) = Some (PStr base) ->
  json_dumps value = Raise e ->
  Device_target_temperature_setter self value w = (Raise e, w).
Proof.
  intros Hshared Hversion Hbase Hjson. unfold Device_target_temperature_setter.
  unfold requests_post, send, mbind, M_bind, read, lift, log_request, mret, M_ret, raise;
    simpl.
  unfold Device_attr_shared. rewrite (property_access_ok _ _ _ Hshared).
  rewrite Hversion, Hbase; simpl. rewrite Hjson; reflexivity.
Qed.

Lemma Structure_away_setter_posts (self : Structure) (b : bool)
    (w : World) (structure version : pyval) (base : string) :
  Structure_structure (conn w) self = Ok structure ->
  py_getitem structure "$version" = Ok version ->
  transport_url (conn w) = Some (PStr base) ->
  let req := away_request (conn w) self base version (PBool b) in
  Structure_away_setter self (PBool b) w =
    (write_outcome "Could not set away: " (service req), posted req w).
Proof.
  intros Hstructure Hversion Hbase req. unfold Structure_away_setter.
  unfold requests_post, send, mbind, M_bind, read, lift, log_request, mret, M_ret, raise;
    simpl.
  unfold Structure_attr_structure. rewrite (property_access_ok _ _ _ Hstructure).
  rewrite Hversion, Hbase; simpl. fold req.
  unfold write_outcome. destruct (status_code _ =? 200); reflexivity.
Qed.

(** C6, amended.  For a device whose cached shared section has a
    [$version] and a connection that has logged in, assigning
    [Device.target_temperature] any value that [json.dumps] can encode
    posts one request to the shared-section endpoint of the device: the
    body is the JSON object with [target_change_pending] true and
    [target_temperature] the value, and the headers are the connection's
    with [X-nl-base-version] set to the text of that [$version] (and the
    content type).  Nothing else about the value is checked: a value
    without a JSON encoding makes [json.dumps] raise and nothing is
    posted. *)
Theorem target_temperature_posts_json (self : Device) (value : pyval)
    (w : World) (shared version : pyval) (base : string) :
  Device_shared (conn w) self = Ok shared ->
  py_getitem shared "$version" = Ok version ->
  transport_url (conn w) = Some (PStr base) ->
  (forall j, json_dumps value = Ok j ->
     let req := target_temperature_request (conn w) self base version j in
     Device_target_temperature_setter self value w =
       (write_outcome "Could not set the target temperature: " (service req),
        posted req w) /\
     data req = BodyJson (JObj [("target_change_pending", JBool true);
                                ("target_temperature", j)]) /\
     req_headers req !! "X-nl-base-version" = Some (PStr (py_format version))) /\
  (forall e, json_dumps value = Raise e ->
     Device_target_temperature_setter self value w = (Raise e, w)).
Proof.
  intros Hshared Hversion Hbase. split.
  - intros j Hjson req. split; [|split].
    + exact (Device_target_temperature_setter_posts _ _ _ _ _ _ _
               Hshared Hversion Hbase Hjson).
    + reflexivity.
    + unfold req, target_temperature_request; simpl.
      rewrite lookup_insert_ne by discriminate. apply lookup_insert_eq.
  - intros e Hjson.
    exact (Device_target_temperature_setter_unencodable _ _ _ _ _ _ _
             Hshared Hversion Hbase Hjson).
Qed.




(** *** Dynamic attribute lookup *)

Lemma dollar_name_underscore (rest : string) :
  dollar_name ("_" +:+ rest) = "$" +:+ rest.
Proof. unfold dollar_name. simpl. destruct rest; reflexivity. Qed.

Lemma dollar_name_other (name : string) :
  String.prefix "_" name = false -> dollar_name name = name.
Proof. intros H. unfold dollar_name. rewrite H. reflexivity. Qed.

Lemma User_getattr_lookup (depth : nat) (c : Connection) (self : User)
    (name : string) (section : list (string * pyval)) :
  User_user c self = Ok (PDict section) ->
  User_getattr (S depth) c self name =
    lookup_or_AttributeError (dollar_name name) [section].
Proof.
  intros H. simpl. rewrite H. unfold lookup_or_AttributeError. simpl.
  destruct (dict_lookup (dollar_name name) section); reflexivity.
Qed.

Lemma UserSettings_getattr_lookup (depth : nat) (c : Connection) (self : UserSettings)
    (name : string) (section : list (string * pyval)) :
  UserSettings_user_settings c self = Ok (PDict section) ->
  UserSettings_getattr (S depth) c self name =
    lookup_or_AttributeError (dollar_name name) [section].
Proof.
  intros H. simpl. rewrite H. unfold lookup_or_AttributeError. simpl.
  destruct (dict_lookup (dollar_name name) section); reflexivity.
Qed.

Lemma Structure_getattr_lookup (depth : nat) (c : Connection) (self : Structure)
    (name : string) (section : list (string * pyval)) :
  Structure_structure c self = Ok (PDict section) ->
  Structure_getattr (S depth) c self name =
    lookup_or_AttributeError (dollar_name name) [section].
Proof.
  intros H. simpl. rewrite H. unfold lookup_or_AttributeError. simpl.
  destruct (dict_lookup (dollar_name name) section); reflexivity.
Qed.

Lemma Device_getattr_lookup (depth : nat) (c : Connection) (self : Device)
    (name : string) (device shared : list (string * pyval)) :
  Device_device c self = Ok (PDict device) ->
  Device_shared c self = Ok (PDict shared) ->
  Device_getattr (S depth) c self name =
    lookup_or_AttributeError (dollar_name name) [device; shared].
Proof.
  intros Hd Hs. simpl. rewrite Hd, Hs. unfold lookup_or_AttributeError. simpl.
  destruct (dict_lookup (dollar_name name) device); [reflexivity|].
  simpl. destruct (dict_lookup (dollar_name name) shared); reflexivity.
Qed.

(** C7, amended.  For a device whose device and shared sections are
    mappings, [Device.__getattr__] looks up the key [dollar_name name]
    (the name, with a leading underscore replaced by a dollar sign): it
    returns the device section's value when the key is there, otherwise
    the shared section's value when the key is there, and raises
    [AttributeError] when neither section has it.  For a name that does
    not begin with an underscore the key is the name itself. *)
Theorem Device_getattr_device_before_shared (depth : nat) (c : Connection)
    (self : Device) (name : string) (device shared : list (string * pyval)) :
  Device_device c self = Ok (PDict device) ->
  Device_shared c self = Ok (PDict shared) ->
  Device_getattr (S depth) c self name =
    match dict_lookup (dollar_name name) device with
    | Some v => Ok v
    | None =>
        match dict_lookup (dollar_name name) shared with
        | Some v => Ok v
        | None => Raise AttributeError
        end
    end /\
  (String.prefix "_" name = false -> dollar_name name = name).
Proof.
  intros Hd Hs. split; [|apply dollar_name_other].
  rewrite (Device_getattr_lookup _ _ _ _ _ _ Hd Hs).
  unfold lookup_or_AttributeError. simpl.
  destruct (dict_lookup (dollar_name name) device); [reflexivity|].
  simpl. destruct (dict_lookup (dollar_name name) shared); reflexivity.
Qed.

(** C10.  For each of the four views, [__getattr__] of a name that
    begins with an underscore looks up the key made of a dollar sign and
    the rest of the name in the view's section of the snapshot (for a
    device: in the device section, then in the shared section), and
    raises [AttributeError] when the key is not there. *)
Theorem underscore_names_read_dollar_keys (depth : nat) (c : Connection)
    (rest : string) (section shared : list (string * pyval)) :
  (forall self : User,
     User_user c self = Ok (PDict section) ->
     User_getattr (S depth) c self ("_" +:+ rest) =
       match dict_lookup ("$" +:+ rest) section with
       | Some v => Ok v
       | None => Raise AttributeError
       end) /\
  (forall self : UserSettings,
     UserSettings_user_settings c self = Ok (PDict section) ->
     UserSettings_getattr (S depth) c self ("_" +:+ rest) =
       match dict_lookup ("$" +:+ rest) section with
       | Some v => Ok v
       | None => Raise AttributeError
       end) /\
  (forall self : Structure,
     Structure_structure c self = Ok (PDict section) ->
     Structure_getattr (S depth) c self ("_" +:+ rest) =
       match dict_lookup ("$" +:+ rest) section with
       | Some v => Ok v
       | None => Raise AttributeError
       end) /\
  (forall self : Device,
     Device_device c self = Ok (PDict section) ->
     Device_shared c self = Ok (PDict shared) ->
     Device_getattr (S depth) c self ("_" +:+ rest) =
       match dict_lookup ("$" +:+ rest) section with
       | Some v => Ok v
       | None =>
           match dict_lookup ("$" +:+ rest) shared with
           | Some v => Ok v
           | None => Raise AttributeError
           end
       end).
Proof.
  repeat split.
  - intros self H. rewrite (User_getattr_lookup _ _ _ _ _ H), dollar_name_underscore.
    unfold lookup_or_AttributeError. simpl.
    destruct (dict_lookup _ section); reflexivity.
  - intros self H.
    rewrite (UserSettings_getattr_lookup _ _ _ _ _ H), dollar_name_underscore.
    unfold lookup_or_AttributeError. simpl.
    destruct (dict_lookup _ section); reflexivity.
  - intros self H.
    rewrite (Structure_getattr_lookup _ _ _ _ _ H), dollar_name_underscore.
    unfold lookup_or_AttributeError. simpl.
    destruct (dict_lookup _ section); reflexivity.
  - intros self Hd Hs.
    rewrite (Device_getattr_lookup _ _ _ _ _ _ Hd Hs), dollar_name_underscore.
    unfold lookup_or_AttributeError. simpl.
    destruct (dict_lookup _ section); [reflexivity|].
    simpl. destruct (dict_lookup _ shared); reflexivity.
Qed.

(** *** The settings of a user *)

Lemma UserSettings_get_raises (user_id : string) (w : World) :
  UserSettings_get user_id w = (Raise AttributeError, w).
Proof. reflexivity. Qed.

Lemma UserSettings_init_raises (user_id : string) (w : World) :
  UserSettings_init user_id w = (Raise AttributeError, w).
Proof. reflexivity. Qed.

(** Before the first snapshot, [__getattr__] needs [self.user], whose
    getter fails on [connection.status], which sends Python back into
    [__getattr__]: the calls nest until the limit. *)
Lemma User_getattr_without_status (depth : nat) (c : Connection) (self : User)
    (name : string) :
  status c = None -> User_getattr depth c self name = Raise RecursionError.
Proof.
  intros Hstatus. revert name.
  induction depth as [|depth IH]; intros name; [reflexivity|].
  simpl. unfold User_user. rewrite Hstatus. simpl. rewrite IH. reflexivity.
Qed.

(** C9, amended.  On every connection [UserSettings.get] and
    [UserSettings.__init__] raise [AttributeError], because a connection
    has no [_user_settings] cache; so the getter of [User.settings]
    always raises [AttributeError].  The attribute access
    [user.settings] therefore ends as [User.__getattr__('settings')]
    does: when the snapshot has the user's entry it raises
    [AttributeError] unless the entry has a key ['settings'], whose value
    it then returns; when the connection has no snapshot yet it ends in
    [RecursionError]. *)
Theorem settings_cache_was_never_created (self : User) (w : World) :
  UserSettings_get (user_id self) w = (Raise AttributeError, w) /\
  UserSettings_init (user_id self) w = (Raise AttributeError, w) /\
  User_settings self w = (Raise AttributeError, w) /\
  User_attr_settings self w =
    (User_getattr recursion_limit (conn w) self "settings", w) /\
  (forall section : list (string * pyval),
     (0 < recursion_limit)%nat ->
     User_user (conn w) self = Ok (PDict section) ->
     User_attr_settings self w =
       (match dict_lookup "settings" section with
        | Some v => Ok v
        | None => Raise AttributeError
        end, w)) /\
  (status (conn w) = None ->
     User_attr_settings self w = (Raise RecursionError, w)).
Proof.
  assert (User_attr_settings self w =
            (User_getattr recursion_limit (conn w) self "settings", w)) as Haccess
    by reflexivity.
  repeat split; try reflexivity.
  - intros section Hlimit Hsection. rewrite Haccess.
    destruct recursion_limit as [|depth]; [lia|].
    rewrite (User_getattr_lookup _ _ _ _ _ Hsection).
    unfold lookup_or_AttributeError. simpl.
    destruct (dict_lookup _ section); reflexivity.
  - intros Hstatus. rewrite Haccess.
    rewrite (User_getattr_without_status _ _ _ _ Hstatus). reflexivity.
Qed.

(** *** One instance per id *)

Lemma kind_instance_inj (k k' : kind) (id id' : string) :
  kind_instance k id = kind_instance k' id' -> k = k' /\ id = id'.
Proof. destruct k, k'; simpl; intros [=]; subst; split; reflexivity. Qed.

Lemma kind_cache_store_same (k : kind) (id : string) (a : addr) (c : Connection) :
  kind_cache k (Connection_cache_store (kind_name k) id a c) = <[id := a]> (kind_cache k c).
Proof. destruct k; reflexivity. Qed.

Lemma kind_cache_store_other (k k' : kind) (id : string) (a : addr) (c : Connection) :
  k ≠ k' ->
  kind_cache k' (Connection_cache_store (kind_name k) id a c) = kind_cache k' c.
Proof. destruct k, k'; intros H; try reflexivity; contradiction. Qed.

Lemma User_init_constructs (id : string) (w : World) :
  constructs KUser id w (User_init id w).
Proof.
  unfold constructs, User_init, mbind, M_bind, read, raise; simpl.
  destruct (_users (conn w) !! id) eqn:E; [left; eexists; reflexivity|].
  right. split; reflexivity.
Qed.

Lemma Device_init_constructs (id : string) (w : World) :
  constructs KDevice (Device_clean_id id) w (Device_init id w).
Proof.
  unfold constructs, Device_init, mbind, M_bind, read, raise; simpl.
  destruct (_devices (conn w) !! Device_clean_id id) eqn:E; [left; eexists; reflexivity|].
  destruct (missing_from_status "device" _ (conn w)) as [[]|e];
    try (left; eexists; reflexivity).
  destruct (missing_from_status "shared" _ (conn w)) as [[]|e];
    try (left; eexists; reflexivity).
  right. split; reflexivity.
Qed.

Lemma Structure_init_constructs (id : string) (w : World) :
  constructs KStructure (Structure_clean_id id) w (Structure_init id w).
Proof.
  unfold constructs, Structure_init, mbind, M_bind, read, raise; simpl.
  destruct (missing_from_status "structure" _ (conn w)) as [[]|e];
    try (left; eexists; reflexivity).
  destruct (_structures (conn w) !! Structure_clean_id id) eqn:E;
    [left; eexists; reflexivity|].
  right. split; reflexivity.
Qed.

(** [get]: the cached instance, or what the constructor does with the
    cleaned id. *)
Lemma User_get_cases (id : string) (w : World) :
  match _users (conn w) !! id with
  | Some a => User_get id w = (Ok a, w)
  | None => User_get id w = User_init id w
  end.
Proof.
  unfold User_get, mbind, M_bind, read; simpl.
  destruct (_users (conn w) !! id); reflexivity.
Qed.

Lemma Device_get_cases (id : string) (w : World) :
  match _devices (conn w) !! Device_clean_id id with
  | Some a => Device_get id w = (Ok a, w)
  | None => Device_get id w = Device_init (Device_clean_id id) w
  end.
Proof.
  unfold Device_get, mbind, M_bind, read; simpl.
  destruct (_devices (conn w) !! Device_clean_id id); reflexivity.
Qed.

Lemma Structure_get_cases (id : string) (w : World) :
  match _structures (conn w) !! Structure_clean_id id with
  | Some a => Structure_get id w = (Ok a, w)
  | None => Structure_get id w = Structure_init (Structure_clean_id id) w
  end.
Proof.
  unfold Structure_get, mbind, M_bind, read; simpl.
  destruct (_structures (conn w) !! Structure_clean_id id); reflexivity.
Qed.

Lemma created_cached (k : kind) (id : string) (w : World) :
  kind_cache k (conn (created k id w)) !! id = Some (length (heap w)).
Proof. simpl. rewrite kind_cache_store_same. apply lookup_insert_eq. Qed.

Lemma created_preserves_invariant (k : kind) (id : string) (w : World) :
  kind_cache k (conn w) !! id = None ->
  identity_invariant w -> identity_invariant (created k id w).
Proof.
  intros Hfresh [Hheap Hcache]. split.
  - intros a i Hi. simpl in Hi.
    destruct (decide (a < length (heap w))%nat) as [Hlt|Hge].
    + rewrite lookup_app_l in Hi by exact Hlt.
      destruct (Hheap a i Hi) as (k' & id' & -> & Hin).
      exists k', id'. split; [reflexivity|]. simpl.
      destruct (decide (k = k')) as [<-|Hk].
      * rewrite kind_cache_store_same.
        rewrite lookup_insert_ne; [exact Hin|].
        intros <-. rewrite Hfresh in Hin. discriminate.
      * rewrite kind_cache_store_other by exact Hk. exact Hin.
    + assert (a = length (heap w)) as ->.
      { apply lookup_lt_Some in Hi. rewrite length_app in Hi. simpl in Hi. lia. }
      rewrite lookup_app_r in Hi by lia.
      rewrite Nat.sub_diag in Hi. simpl in Hi. injection Hi as <-.
      exists k, id. split; [reflexivity|]. apply created_cached.
  - intros k' id' a Hin. simpl in Hin. simpl.
    destruct (decide (k = k')) as [<-|Hk].
    + rewrite kind_cache_store_same in Hin.
      destruct (decide (id = id')) as [<-|Hid].
      * rewrite lookup_insert_eq in Hin. injection Hin as <-.
        rewrite lookup_app_r by lia. rewrite Nat.sub_diag. reflexivity.
      * rewrite lookup_insert_ne in Hin by exact Hid.
        pose proof (Hcache _ _ _ Hin) as Ha.
        rewrite lookup_app_l; [exact Ha|]. exact (lookup_lt_Some _ _ _ Ha).
    + rewrite kind_cache_store_other in Hin by exact Hk.
      pose proof (Hcache _ _ _ Hin) as Ha.
      rewrite lookup_app_l; [exact Ha|]. exact (lookup_lt_Some _ _ _ Ha).
Qed.

Lemma constructs_preserves_invariant (k : kind) (id : string) (w : World)
    (out : res addr * World) :
  constructs k id w out -> identity_invariant w -> identity_invariant out.2.
Proof.
  intros [[e ->]|[Hfresh ->]] Hinv; simpl; [exact Hinv|].
  exact (created_preserves_invariant _ _ _ Hfresh Hinv).
Qed.

Lemma invariant_one_instance (w : World) (a b : addr) (i : Instance) :
  identity_invariant w -> heap w !! a = Some i -> heap w !! b = Some i -> a = b.
Proof.
  intros [Hheap _] Ha Hb.
  destruct (Hheap _ _ Ha) as (k & id & -> & Hka).
  destruct (Hheap _ _ Hb) as (k' & id' & Heq & Hkb).
  apply kind_instance_inj in Heq as [<- <-].
  rewrite Hka in Hkb. injection Hkb as ->. reflexivity.
Qed.

Lemma identity_invariant_same (w w' : World) :
  (forall k, kind_cache k (conn w') = kind_cache k (conn w)) ->
  heap w' = heap w ->
  identity_invariant w -> identity_invariant w'.
Proof.
  intros Hcache Hheap [H1 H2]. split.
  - intros a i Hi. rewrite Hheap in Hi.
    destruct (H1 a i Hi) as (k & id & -> & Hin).
    exists k, id. rewrite Hcache. split; [reflexivity | exact Hin].
  - intros k id a Hin. rewrite Hcache in Hin. rewrite Hheap. exact (H2 _ _ _ Hin).
Qed.

Lemma write_cases_preserve_invariant (what : string) (out : res unit * World)
    (w : World) :
  ((exists e, out = (Raise e, w)) \/
   (exists req, out = (write_outcome what (service req),
                       {| conn := conn w; heap := heap w; sent := sent w ++ [req] |}))) ->
  identity_invariant w -> identity_invariant out.2.
Proof.
  intros [[e ->]|[req ->]] Hinv; simpl; [exact Hinv|].
  apply (identity_invariant_same w); [reflexivity | reflexivity | exact Hinv].
Qed.

Lemma keeps_ret {A} (a : A) : keeps_instances (mret a : M A).
Proof. intros w. split; reflexivity. Qed.

Lemma keeps_lift {A} (r : res A) : keeps_instances (lift r).
Proof. intros w. split; reflexivity. Qed.

Lemma keeps_read {A} (f : Connection -> res A) : keeps_instances (read f).
Proof. intros w. split; reflexivity. Qed.

Lemma keeps_send (r : Request) : keeps_instances (send r).
Proof. intros w. split; reflexivity. Qed.

Lemma keeps_modify (f : Connection -> Connection) :
  (forall c k, kind_cache k (f c) = kind_cache k c) -> keeps_instances (modify f).
Proof. intros Hf w. split; [reflexivity|]. intros k. apply Hf. Qed.

Lemma keeps_bind {A B} (m : M A) (k : A -> M B) :
  keeps_instances m -> (forall a, keeps_instances (k a)) -> keeps_instances (m ≫= k).
Proof.
  intros Hm Hk w. unfold mbind, M_bind.
  destruct (Hm w) as [Hheap Hcache].
  destruct (m w) as [[a|e] w']; simpl in *.
  - destruct (Hk a w') as [Hheap' Hcache']. split.
    + rewrite Hheap'. exact Hheap.
    + intros k0. rewrite Hcache'. apply Hcache.
  - split; assumption.
Qed.

Lemma Connection_update_status_keeps : keeps_instances Connection_update_status.
Proof.
  unfold Connection_update_status, requests_get.
  repeat (first [apply keeps_bind; [|intros ?] | apply keeps_read | apply keeps_lift
                | apply keeps_send]).
  apply keeps_modify. intros c k. destruct k; reflexivity.
Qed.

Lemma Connection_login_keeps : keeps_instances Connection_login.
Proof.
  unfold Connection_login, requests_post.
  repeat (first [apply Connection_update_status_keeps
                | apply keeps_bind; [|intros ?] | apply keeps_read | apply keeps_lift
                | apply keeps_send
                | apply keeps_modify; intros c k; destruct k; reflexivity]).
Qed.

Lemma keeps_preserves_invariant {A} (m : M A) (w : World) :
  keeps_instances m -> identity_invariant w -> identity_invariant (m w).2.
Proof.
  intros Hm Hinv. destruct (Hm w) as [Hheap Hcache].
  exact (identity_invariant_same w _ Hcache Hheap Hinv).
Qed.

Lemma run_preserves_invariant (c : call) (w : World) :
  identity_invariant w -> identity_invariant (run c w).
Proof.
  intros Hinv. destruct c as [| |id|id|id|id|id|id|id|id|self|self value|self|self value
                             |self value|self]; simpl.
  - exact (keeps_preserves_invariant _ w Connection_login_keeps Hinv).
  - exact (keeps_preserves_invariant _ w Connection_update_status_keeps Hinv).
  - pose proof (User_get_cases id w) as H.
    destruct (_users (conn w) !! id); rewrite H; [exact Hinv|].
    exact (constructs_preserves_invariant _ _ _ _ (User_init_constructs id w) Hinv).
  - exact (constructs_preserves_invariant _ _ _ _ (User_init_constructs id w) Hinv).
  - exact Hinv.
  - exact Hinv.
  - pose proof (Device_get_cases id w) as H.
    destruct (_devices (conn w) !! Device_clean_id id); rewrite H; [exact Hinv|].
    exact (constructs_preserves_invariant _ _ _ _ (Device_init_constructs _ w) Hinv).
  - exact (constructs_preserves_invariant _ _ _ _ (Device_init_constructs id w) Hinv).
  - pose proof (Structure_get_cases id w) as H.
    destruct (_structures (conn w) !! Structure_clean_id id); rewrite H; [exact Hinv|].
    exact (constructs_preserves_invariant _ _ _ _ (Structure_init_constructs _ w) Hinv).
  - exact (constructs_preserves_invariant _ _ _ _ (Structure_init_constructs id w) Hinv).
  - exact Hinv.
  - exact (write_cases_preserve_invariant _ _ _
             (Device_fan_mode_setter_cases self value w) Hinv).
  - unfold Device_toggle_fan_mode, mbind, M_bind, read, lift.
    destruct (Device_attr_fan_mode (conn w) self) as [current|e]; [|exact Hinv].
    destruct (fan_mode_opposite current) as [value|e]; [|exact Hinv].
    exact (write_cases_preserve_invariant _ _ _
             (Device_fan_mode_setter_cases self value w) Hinv).
  - exact (write_cases_preserve_invariant _ _ _
             (Device_target_temperature_setter_cases self value w) Hinv).
  - exact (write_cases_preserve_invariant _ _ _
             (Structure_away_setter_cases self value w) Hinv).
  - unfold Structure_toggle_away, mbind, M_bind, read.
    destruct (Structure_attr_away (conn w) self) as [current|e]; [|exact Hinv].
    exact (write_cases_preserve_invariant _ _ _
             (Structure_away_setter_cases self _ w) Hinv).
Qed.

Lemma reachable_invariant (w : World) : reachable w -> identity_invariant w.
Proof.
  induction 1 as [u p|w c _ IH].
  - split.
    + intros a i Hi. simpl in Hi. discriminate.
    + intros k id a Hin. destruct k; simpl in Hin; rewrite lookup_empty in Hin;
        discriminate.
  - exact (run_preserves_invariant c w IH).
Qed.

Lemma cached_instance_on_heap (w : World) (k : kind) (id : string) (a : addr) :
  reachable w ->
  kind_cache k (conn w) !! id = Some a ->
  heap w !! a = Some (kind_instance k id).
Proof. intros Hreach. exact (proj2 (reachable_invariant w Hreach) k id a). Qed.

Lemma User_get_returns (id : string) (w : World) :
  exists a w1, User_get id w = (Ok a, w1) /\ _users (conn w1) !! id = Some a.
Proof.
  pose proof (User_get_cases id w) as H.
  destruct (_users (conn w) !! id) as [a|] eqn:E.
  - exists a, w. split; assumption.
  - exists (length (heap w)), (created KUser id w). split.
    + rewrite H. unfold User_init, mbind, M_bind, read, raise; simpl.
      rewrite E. reflexivity.
    + exact (created_cached KUser id w).
Qed.

Lemma User_get_again (id : string) (w w1 : World) (a : addr) :
  User_get id w = (Ok a, w1) ->
  _users (conn w1) !! id = Some a /\ User_get id w1 = (Ok a, w1).
Proof.
  intros Hget.
  assert (_users (conn w1) !! id = Some a) as Hcached.
  { destruct (User_get_returns id w) as (a' & w' & Hget' & Hin).
    rewrite Hget in Hget'. injection Hget' as <- <-. exact Hin. }
  split; [exact Hcached|].
  pose proof (User_get_cases id w1) as H. rewrite Hcached in H. exact H.
Qed.

Lemma Device_get_again (id : string) (w w1 : World) (a : addr) :
  Device_clean_id (Device_clean_id id) = Device_clean_id id ->
  Device_get id w = (Ok a, w1) ->
  _devices (conn w1) !! Device_clean_id id = Some a /\ Device_get id w1 = (Ok a, w1).
Proof.
  intros Hstable Hget.
  assert (_devices (conn w1) !! Device_clean_id id = Some a) as Hcached.
  { pose proof (Device_get_cases id w) as H.
    destruct (_devices (conn w) !! Device_clean_id id) as [a'|] eqn:E.
    - rewrite Hget in H. injection H as -> ->. exact E.
    - rewrite Hget in H.
      destruct (Device_init_constructs (Device_clean_id id) w) as [[e He]|[_ Hnew]].
      + rewrite <- H in He. discriminate.
      + rewrite <- H, Hstable in Hnew. injection Hnew as -> ->.
        exact (created_cached KDevice _ w). }
  split; [exact Hcached|].
  pose proof (Device_get_cases id w1) as H. rewrite Hcached in H. exact H.
Qed.

Lemma Structure_get_again (id : string) (w w1 : World) (a : addr) :
  Structure_clean_id (Structure_clean_id id) = Structure_clean_id id ->
  Structure_get id w = (Ok a, w1) ->
  _structures (conn w1) !! Structure_clean_id id = Some a /\
  Structure_get id w1 = (Ok a, w1).
Proof.
  intros Hstable Hget.
  assert (_structures (conn w1) !! Structure_clean_id id = Some a) as Hcached.
  { pose proof (Structure_get_cases id w) as H.
    destruct (_structures (conn w) !! Structure_clean_id id) as [a'|] eqn:E.
    - rewrite Hget in H. injection H as -> ->. exact E.
    - rewrite Hget in H.
      destruct (Structure_init_constructs (Structure_clean_id id) w)
        as [[e He]|[_ Hnew]].
      + rewrite <- H in He. discriminate.
      + rewrite <- H, Hstable in Hnew. injection Hnew as -> ->.
        exact (created_cached KStructure _ w). }
  split; [exact Hcached|].
  pose proof (Structure_get_cases id w1) as H. rewrite Hcached in H. exact H.
Qed.

(** [Device.get] and [Structure.get] return for an id that the snapshot
    has (in both sections, for a device). *)
Lemma Device_get_returns (id : string) (w : World) :
  Device_clean_id (Device_clean_id id) = Device_clean_id id ->
  missing_from_status "device" (Device_clean_id id) (conn w) = Ok false ->
  missing_from_status "shared" (Device_clean_id id) (conn w) = Ok false ->
  exists a w1, Device_get id w = (Ok a, w1).
Proof.
  intros Hstable Hdevice Hshared.
  pose proof (Device_get_cases id w) as H.
  destruct (_devices (conn w) !! Device_clean_id id) as [a|] eqn:E.
  - exists a, w. exact H.
  - exists (length (heap w)), (created KDevice (Device_clean_id id) w).
    rewrite H. unfold Device_init, mbind, M_bind, read, raise; simpl.
    rewrite Hstable, E, Hdevice, Hshared. reflexivity.
Qed.

Lemma Structure_get_returns (id : string) (w : World) :
  Structure_clean_id (Structure_clean_id id) = Structure_clean_id id ->
  missing_from_status "structure" (Structure_clean_id id) (conn w) = Ok false ->
  exists a w1, Structure_get id w = (Ok a, w1).
Proof.
  intros Hstable Hstructure.
  pose proof (Structure_get_cases id w) as H.
  destruct (_structures (conn w) !! Structure_clean_id id) as [a|] eqn:E.
  - exists a, w. exact H.
  - exists (length (heap w)), (created KStructure (Structure_clean_id id) w).
    rewrite H. unfold Structure_init, mbind, M_bind, read, raise; simpl.
    rewrite Hstable, Hstructure. simpl. rewrite E. reflexivity.
Qed.

(** C2, amended.  On every world a client can reach, two instances of
    the same kind and id are the same object.  [User.get] always returns,
    and [Device.get] and [Structure.get] return for an id of the
    snapshot; when [get] has returned, what it returned is the instance
    of that kind and id, it is the cached one, and calling [get] again
    with the same id returns the same object and changes nothing: for
    every user id, and for every device or structure id that carries its
    kind prefix at most once (cleaning the cleaned id leaves it as it
    is).  Constructing an instance directly for an id that is cached
    raises: [RuntimeError] for a user and for a device, and an exception
    for a structure. *)
Theorem one_instance_per_id (w : World) (id : string) :
  (reachable w ->
     forall (a b : addr) (i : Instance),
       heap w !! a = Some i -> heap w !! b = Some i -> a = b) /\
  (reachable w ->
     forall (a : addr) (w1 : World),
       (User_get id w = (Ok a, w1) ->
          heap w1 !! a = Some (IUser {| user_id := id |})) /\
       (Device_clean_id (Device_clean_id id) = Device_clean_id id ->
        Device_get id w = (Ok a, w1) ->
          heap w1 !! a = Some (IDevice {| device_id := Device_clean_id id |})) /\
       (Structure_clean_id (Structure_clean_id id) = Structure_clean_id id ->
        Structure_get id w = (Ok a, w1) ->
          heap w1 !! a =
            Some (IStructure {| structure_id := Structure_clean_id id |}))) /\
  (exists a w1, User_get id w = (Ok a, w1)) /\
  (forall a w1, User_get id w = (Ok a, w1) ->
     _users (conn w1) !! id = Some a /\ User_get id w1 = (Ok a, w1)) /\
  (Device_clean_id (Device_clean_id id) = Device_clean_id id ->
     (missing_from_status "device" (Device_clean_id id) (conn w) = Ok false ->
      missing_from_status "shared" (Device_clean_id id) (conn w) = Ok false ->
      exists a w1, Device_get id w = (Ok a, w1)) /\
     (forall a w1, Device_get id w = (Ok a, w1) ->
        _devices (conn w1) !! Device_clean_id id = Some a /\
        Device_get id w1 = (Ok a, w1))) /\
  (Structure_clean_id (Structure_clean_id id) = Structure_clean_id id ->
     (missing_from_status "structure" (Structure_clean_id id) (conn w) = Ok false ->
      exists a w1, Structure_get id w = (Ok a, w1)) /\
     (forall a w1, Structure_get id w = (Ok a, w1) ->
        _structures (conn w1) !! Structure_clean_id id = Some a /\
        Structure_get id w1 = (Ok a, w1))) /\
  (is_Some (_users (conn w) !! id) ->
     User_init id w = (Raise (RuntimeError ""), w)) /\
  (is_Some (_devices (conn w) !! Device_clean_id id) ->
     Device_init id w = (Raise (RuntimeError ""), w)) /\
  (is_Some (_structures (conn w) !! Structure_clean_id id) ->
     exists e, Structure_init id w = (Raise e, w)).
Proof.
  split; [|split; [|split; [|split; [|split; [|split; [|split; [|split]]]]]]].
  - intros Hreach a b i.
    exact (invariant_one_instance w a b i (reachable_invariant w Hreach)).
  - intros Hreach a w1. split; [|split].
    + intros Hget. destruct (User_get_again id w w1 a Hget) as [Hcached _].
      apply (cached_instance_on_heap w1 KUser id a); [|exact Hcached].
      replace w1 with (run (CallUserGet id) w) by (simpl; rewrite Hget; reflexivity).
      apply reachable_call. exact Hreach.
    + intros Hstable Hget.
      destruct (Device_get_again id w w1 a Hstable Hget) as [Hcached _].
      apply (cached_instance_on_heap w1 KDevice _ a); [|exact Hcached].
      replace w1 with (run (CallDeviceGet id) w) by (simpl; rewrite Hget; reflexivity).
      apply reachable_call. exact Hreach.
    + intros Hstable Hget.
      destruct (Structure_get_again id w w1 a Hstable Hget) as [Hcached _].
      apply (cached_instance_on_heap w1 KStructure _ a); [|exact Hcached].
      replace w1 with (run (CallStructureGet id) w) by (simpl; rewrite Hget; reflexivity).
      apply reachable_call. exact Hreach.
  - destruct (User_get_returns id w) as (a & w1 & H & _). exists a, w1. exact H.
  - intros a w1. apply User_get_again.
  - intros Hstable. split.
    + apply Device_get_returns. exact Hstable.
    + intros a w1. apply Device_get_again. exact Hstable.
  - intros Hstable. split.
    + apply Structure_get_returns. exact Hstable.
    + intros a w1. apply Structure_get_again. exact Hstable.
  - intros [a Ha]. unfold User_init, mbind, M_bind, read, raise; simpl.
    rewrite Ha. reflexivity.
  - intros [a Ha]. unfold Device_init, mbind, M_bind, read, raise; simpl.
    rewrite Ha. reflexivity.
  - intros [a Ha].
    destruct (Structure_init_constructs id w) as [[e He]|[Hfresh _]].
    + exists e. exact He.
    + simpl in Hfresh. rewrite Ha in Hfresh. discriminate.
Qed.

(** ** Further properties *)

(** *** Ids with and without the kind prefix *)

Lemma Device_clean_id_prefixed (id : string) :
  Device_clean_id ("device." +:+ id) = id.
Proof. unfold Device_clean_id. simpl. destruct id; reflexivity. Qed.

Lemma Structure_clean_id_prefixed (id : string) :
  Structure_clean_id ("structure." +:+ id) = id.
Proof. unfold Structure_clean_id. simpl. destruct id; reflexivity. Qed.

Lemma Device_clean_id_plain (id : string) :
  String.prefix "device." id = false -> Device_clean_id id = id.
Proof. intros H. unfold Device_clean_id. rewrite H. reflexivity. Qed.

Lemma Structure_clean_id_plain (id : string) :
  String.prefix "structure." id = false -> Structure_clean_id id = id.
Proof. intros H. unfold Structure_clean_id. rewrite H. reflexivity. Qed.

(** X1.  [Device.get], [Device.__init__], [Structure.get] and
    [Structure.__init__] take an id with or without the kind prefix: for
    an id that does not itself begin with the prefix, the call with the
    prefixed id does what the call with the plain id does. *)
Theorem prefixed_id_is_the_plain_id (id : string) (w : World) :
  (String.prefix "device." id = false ->
     Device_get ("device." +:+ id) w = Device_get id w /\
     Device_init ("device." +:+ id) w = Device_init id w) /\
  (String.prefix "structure." id = false ->
     Structure_get ("structure." +:+ id) w = Structure_get id w /\
     Structure_init ("structure." +:+ id) w = Structure_init id w).
Proof.
  split; intros Hplain.
  - unfold Device_get, Device_init. cbv zeta.
    rewrite Device_clean_id_prefixed, !(Device_clean_id_plain _ Hplain).
    split; reflexivity.
  - unfold Structure_get, Structure_init. cbv zeta.
    rewrite Structure_clean_id_prefixed, !(Structure_clean_id_plain _ Hplain).
    split; reflexivity.
Qed.

(** *** When [get] returns *)

Lemma Device_get_raise_unchanged (id : string) (w w1 : World) (e : exn) :
  Device_get id w = (Raise e, w1) -> w1 = w.
Proof.
  intros Hget. pose proof (Device_get_cases id w) as H.
  destruct (_devices (conn w) !! Device_clean_id id).
  - rewrite Hget in H. discriminate.
  - rewrite Hget in H.
    destruct (Device_init_constructs (Device_clean_id id) w) as [[e' He]|[_ Hnew]].
    + rewrite <- H in He. injection He as _ ->. reflexivity.
    + rewrite <- H in Hnew. discriminate.
Qed.

Lemma Structure_get_raise_unchanged (id : string) (w w1 : World) (e : exn) :
  Structure_get id w = (Raise e, w1) -> w1 = w.
Proof.
  intros Hget. pose proof (Structure_get_cases id w) as H.
  destruct (_structures (conn w) !! Structure_clean_id id).
  - rewrite Hget in H. discriminate.
  - rewrite Hget in H.
    destruct (Structure_init_constructs (Structure_clean_id id) w) as [[e' He]|[_ Hnew]].
    + rewrite <- H in He. injection He as _ ->. reflexivity.
    + rewrite <- H in Hnew. discriminate.
Qed.

(** X2.  For an id that carries its kind prefix at most once,
    [Device.get] returns an instance exactly when the cleaned id is
    cached or is a key of both the device and the shared section of the
    snapshot, and [Structure.get] exactly when the cleaned id is cached
    or is a key of the structure section.  A [get] that raises leaves
    the world as it was: nothing is cached for the id. *)
Theorem get_returns_exactly_for_known_ids (id : string) (w : World) :
  (Device_clean_id (Device_clean_id id) = Device_clean_id id ->
     ((exists a w1, Device_get id w = (Ok a, w1)) <->
      (is_Some (_devices (conn w) !! Device_clean_id id) \/
       (missing_from_status "device" (Device_clean_id id) (conn w) = Ok false /\
        missing_from_status "shared" (Device_clean_id id) (conn w) = Ok false)))) /\
  (Structure_clean_id (Structure_clean_id id) = Structure_clean_id id ->
     ((exists a w1, Structure_get id w = (Ok a, w1)) <->
      (is_Some (_structures (conn w) !! Structure_clean_id id) \/
       missing_from_status "structure" (Structure_clean_id id) (conn w) = Ok false))) /\
  (forall e w1, Device_get id w = (Raise e, w1) -> w1 = w) /\
  (forall e w1, Structure_get id w = (Raise e, w1) -> w1 = w).
Proof.
  split; [|split; [|split]].
  - intros Hstable. split.
    + intros (a & w1 & Hget).
      pose proof (Device_get_cases id w) as H.
      destruct (_devices (conn w) !! Device_clean_id id) as [a'|] eqn:E;
        [left; eexists; reflexivity|].
      right. rewrite Hget in H. revert H.
      unfold Device_init, mbind, M_bind, read, raise; simpl.
      rewrite Hstable, E.
      destruct (missing_from_status "device" _ (conn w)) as [[]|e]; try discriminate.
      destruct (missing_from_status "shared" _ (conn w)) as [[]|e]; try discriminate.
      intros _. split; reflexivity.
    + intros [[a Hcached]|[Hdevice Hshared]].
      * exists a, w. pose proof (Device_get_cases id w) as H.
        rewrite Hcached in H. exact H.
      * exact (Device_get_returns id w Hstable Hdevice Hshared).
  - intros Hstable. split.
    + intros (a & w1 & Hget).
      pose proof (Structure_get_cases id w) as H.
      destruct (_structures (conn w) !! Structure_clean_id id) as [a'|] eqn:E;
        [left; eexists; reflexivity|].
      right. rewrite Hget in H. revert H.
      unfold Structure_init, mbind, M_bind, read, raise; simpl.
      rewrite Hstable.
      destruct (missing_from_status "structure" _ (conn w)) as [[]|e]; try discriminate.
      intros _. reflexivity.
    + intros [[a Hcached]|Hstructure].
      * exists a, w. pose proof (Structure_get_cases id w) as H.
        rewrite Hcached in H. exact H.
      * exact (Structure_get_returns id w Hstable Hstructure).
  - intros e w1. apply Device_get_raise_unchanged.
  - intros e w1. apply Structure_get_raise_unchanged.
Qed.

(** *** Views of ids that the snapshot does not have *)

Lemma section_lacks_KeyError (c : Connection) (section id : string) :
  section_lacks c section id ->
  (st ← attribute (status c); entries ← py_getitem st section; py_getitem entries id)
  = Raise KeyError.
Proof.
  intros (st & entries & Hst & Hsection & Hid).
  rewrite Hst. simpl. rewrite Hsection. simpl. rewrite Hid. reflexivity.
Qed.

(** X3.  A view whose id has no entry in its section of the snapshot
    raises [KeyError], not [AttributeError], for every attribute name;
    so do the [fan_mode] and [away] getters.  A device that has its
    device entry but no shared entry raises [KeyError] for every name
    that the device entry does not have. *)
Theorem missing_entry_raises_KeyError (depth : nat) (c : Connection) (name : string) :
  (forall self : User,
     section_lacks c "user" (user_id self) ->
     User_getattr (S depth) c self name = Raise KeyError) /\
  (forall self : UserSettings,
     section_lacks c "user_settings" (settings_user_id self) ->
     UserSettings_getattr (S depth) c self name = Raise KeyError) /\
  (forall self : Structure,
     section_lacks c "structure" (structure_id self) ->
     Structure_getattr (S depth) c self name = Raise KeyError /\
     Structure_attr_away c self = Raise KeyError) /\
  (forall self : Device,
     section_lacks c "device" (device_id self) ->
     Device_getattr (S depth) c self name = Raise KeyError /\
     Device_attr_fan_mode c self = Raise KeyError) /\
  (forall (self : Device) (device : list (string * pyval)),
     Device_device c self = Ok (PDict device) ->
     section_lacks c "shared" (device_id self) ->
     dict_lookup (dollar_name name) device = None ->
     Device_getattr (S depth) c self name = Raise KeyError).
Proof.
  split; [|split; [|split; [|split]]].
  - intros self H. apply section_lacks_KeyError in H.
    simpl. unfold User_user. rewrite H. reflexivity.
  - intros self H. apply section_lacks_KeyError in H.
    simpl. unfold UserSettings_user_settings. rewrite H. reflexivity.
  - intros self H. apply section_lacks_KeyError in H. split.
    + simpl. unfold Structure_structure. rewrite H. reflexivity.
    + unfold Structure_attr_away, Structure_away, Structure_attr_structure,
        Structure_structure. rewrite H. reflexivity.
  - intros self H. apply section_lacks_KeyError in H. split.
    + simpl. unfold Device_device. rewrite H. reflexivity.
    + unfold Device_attr_fan_mode, Device_fan_mode, Device_attr_device, Device_device.
      rewrite H. reflexivity.
  - intros self device Hdevice H Hname. apply section_lacks_KeyError in H.
    simpl. rewrite Hdevice. simpl. rewrite Hname. simpl.
    unfold Device_shared. rewrite H. reflexivity.
Qed.

(** *** The snapshot and the login *)

(** X4.  [update_status] needs [transport_url] and [userid]: without
    them it raises [AttributeError] and sends nothing.  With them it
    sends one GET with the connection's headers; whatever the status
    code of the response, when the body decodes the snapshot is replaced
    by it and nothing else of the connection changes, and when it does
    not decode the error goes through and the old snapshot stays. *)
Theorem update_status_replaces_the_snapshot (w : World) :
  (transport_url (conn w) = None \/ userid (conn w) = None ->
     Connection_update_status w = (Raise AttributeError, w)) /\
  (forall (base : string) (uid : pyval),
     transport_url (conn w) = Some (PStr base) ->
     userid (conn w) = Some uid ->
     let req := status_request (conn w) base uid in
     (forall st, json (service req) = Ok st ->
        Connection_update_status w =
          (Ok tt, {| conn := set_status st (conn w);
                     heap := heap w;
                     sent := sent w ++ [req] |})) /\
     (forall e, json (service req) = Raise e ->
        Connection_update_status w = (Raise e, posted req w))).
Proof.
  split.
  - intros Hmissing. unfold Connection_update_status, mbind, M_bind, read; simpl.
    destruct (transport_url (conn w)) as [base|]; [|reflexivity].
    destruct Hmissing as [H|H]; [discriminate|]. rewrite H. reflexivity.
  - intros base uid Hbase Huid req. split.
    + intros st Hjson.
      unfold Connection_update_status, requests_get, send, mbind, M_bind, read, lift,
        log_request, modify, mret, M_ret; simpl.
      rewrite Hbase, Huid; simpl. fold (status_request (conn w) base uid). fold req.
      rewrite Hjson. reflexivity.
    + intros e Hjson.
      unfold Connection_update_status, requests_get, send, mbind, M_bind, read, lift,
        log_request, modify, mret, M_ret; simpl.
      rewrite Hbase, Huid; simpl. fold (status_request (conn w) base uid). fold req.
      rewrite Hjson. reflexivity.
Qed.

(** X5.  A login that the service answers with a transport url, a token
    (a string) and a user id, followed by a snapshot, returns; it has
    sent the credentials with the headers the connection had, and then
    the status request with the new headers; afterwards the connection
    has the three values of the answer, the headers [Authorization]
    ([Basic] and the token), [X-nl-user-id] and [X-nl-protocol-version],
    and the snapshot; its caches and the instances are as before. *)
Theorem login_stores_the_session (w : World) (reply urls uid st : pyval)
    (base token : string) :
  json (service (login_request (conn w))) = Ok reply ->
  py_getitem reply "urls" = Ok urls ->
  py_getitem urls "transport_url" = Ok (PStr base) ->
  py_getitem reply "access_token" = Ok (PStr token) ->
  py_getitem reply "userid" = Ok uid ->
  let hdrs := login_headers (conn w) token uid in
  let req :=
    {| method := GET; url := base +:+ "/v2/mobile/user." +:+ py_format uid;
       data := NoBody; req_headers := hdrs |} in
  json (service req) = Ok st ->
  exists w1,
    Connection_login w = (Ok tt, w1) /\
    sent w1 = sent w ++ [login_request (conn w); req] /\
    heap w1 = heap w /\
    transport_url (conn w1) = Some (PStr base) /\
    access_token (conn w1) = Some (PStr token) /\
    userid (conn w1) = Some uid /\
    headers (conn w1) = hdrs /\
    status (conn w1) = Some st /\
    (forall k, kind_cache k (conn w1) = kind_cache k (conn w)).
Proof.
  intros Hreply Hurls Hbase Htoken Huid hdrs req Hst.
  eexists. split.
  - unfold Connection_login, Connection_update_status, requests_post, requests_get, send,
      mbind, M_bind, read, lift, log_request, modify, mret, M_ret; simpl.
    fold (login_request (conn w)). rewrite Hreply; simpl.
    rewrite Hurls; simpl. rewrite Hbase; simpl. rewrite Htoken; simpl.
    rewrite Huid; simpl. fold (login_headers (conn w) token uid). fold hdrs. fold req.
    rewrite Hst. reflexivity.
  - simpl. rewrite <- app_assoc. repeat split.
Qed.

(** X6.  [login] is not atomic.  When the answer has no ['userid'], it
    raises [KeyError] after it has stored the transport url and the
    token; when the token is not a string, it raises [TypeError] after it
    has stored the transport url, the token and the user id.  In both
    cases only the login request was sent, and the headers and the
    snapshot are as before. *)
Theorem login_stops_half_way (w : World) (reply urls transport token : pyval) :
  json (service (login_request (conn w))) = Ok reply ->
  py_getitem reply "urls" = Ok urls ->
  py_getitem urls "transport_url" = Ok transport ->
  py_getitem reply "access_token" = Ok token ->
  (py_getitem reply "userid" = Raise KeyError ->
     exists w1,
       Connection_login w = (Raise KeyError, w1) /\
       sent w1 = sent w ++ [login_request (conn w)] /\
       transport_url (conn w1) = Some transport /\
       access_token (conn w1) = Some token /\
       userid (conn w1) = userid (conn w) /\
       headers (conn w1) = headers (conn w) /\
       status (conn w1) = status (conn w)) /\
  (forall uid, py_getitem reply "userid" = Ok uid ->
     (forall s, token ≠ PStr s) ->
     exists w1,
       Connection_login w = (Raise TypeError, w1) /\
       sent w1 = sent w ++ [login_request (conn w)] /\
       transport_url (conn w1) = Some transport /\
       access_token (conn w1) = Some token /\
       userid (conn w1) = Some uid /\
       headers (conn w1) = headers (conn w) /\
       status (conn w1) = status (conn w)).
Proof.
  intros Hreply Hurls Htransport Htoken. split.
  - intros Huid. eexists. split.
    + unfold Connection_login, requests_post, send, mbind, M_bind, read, lift,
        log_request, modify, mret, M_ret; simpl.
      fold (login_request (conn w)). rewrite Hreply; simpl.
      rewrite Hurls; simpl. rewrite Htransport; simpl. rewrite Htoken; simpl.
      rewrite Huid. reflexivity.
    + simpl. repeat split.
  - intros uid Huid Hnot. eexists. split.
    + unfold Connection_login, requests_post, send, mbind, M_bind, read, lift,
        log_request, modify, mret, M_ret; simpl.
      fold (login_request (conn w)). rewrite Hreply; simpl.
      rewrite Hurls; simpl. rewrite Htransport; simpl. rewrite Htoken; simpl.
      rewrite Huid; simpl.
      assert (py_str_add "Basic " token = Raise TypeError) as ->.
      { destruct token; try reflexivity. exfalso. exact (Hnot s eq_refl). }
      reflexivity.
    + simpl. repeat split.
Qed.

(** *** What the writes send and what they leave alone *)








Lemma write_cases_keep (what : string) (out : res unit * World) (w : World) :
  ((exists e, out = (Raise e, w)) \/
   (exists req, out = (write_outcome what (service req),
                       {| conn := conn w; heap := heap w; sent := sent w ++ [req] |}))) ->
  conn out.2 = conn w /\ heap out.2 = heap w /\
  (sent out.2 = sent w \/ exists req, sent out.2 = sent w ++ [req]).
Proof.
  intros [[e ->]|[req ->]]; simpl; repeat split; [left | right; exists req]; reflexivity.
Qed.

Lemma write_keeps (c : call) (w : World) :
  is_write c = true ->
  conn (run c w) = conn w /\
  heap (run c w) = heap w /\
  (sent (run c w) = sent w \/ exists req, sent (run c w) = sent w ++ [req]).
Proof.
  destruct c as [| |id|id|id|id|id|id|id|id|self|self value|self|self value
                |self value|self]; try discriminate; intros _; simpl.
  - exact (write_cases_keep _ _ _ (Device_fan_mode_setter_cases self value w)).
  - unfold Device_toggle_fan_mode, mbind, M_bind, read, lift.
    destruct (Device_attr_fan_mode (conn w) self) as [current|e];
      [|repeat split; left; reflexivity].
    destruct (fan_mode_opposite current) as [value|e];
      [|repeat split; left; reflexivity].
    exact (write_cases_keep _ _ _ (Device_fan_mode_setter_cases self value w)).
  - exact (write_cases_keep _ _ _ (Device_target_temperature_setter_cases self value w)).
  - exact (write_cases_keep _ _ _ (Structure_away_setter_cases self value w)).
  - unfold Structure_toggle_away, mbind, M_bind, read.
    destruct (Structure_attr_away (conn w) self) as [current|e];
      [|repeat split; left; reflexivity].
    exact (write_cases_keep _ _ _ (Structure_away_setter_cases self _ w)).
Qed.





(** *** Instances stay cached *)

Lemma extends_refl (w : World) : extends w w.
Proof. split; auto. Qed.

Lemma extends_trans (w1 w2 w3 : World) : extends w1 w2 -> extends w2 w3 -> extends w1 w3.
Proof. intros [H1 H1'] [H2 H2']. split; eauto. Qed.

Lemma extends_same (w w' : World) :
  (forall k, kind_cache k (conn w') = kind_cache k (conn w)) ->
  heap w' = heap w -> extends w w'.
Proof.
  intros Hcache Hheap. split.
  - intros k id a. rewrite Hcache. auto.
  - intros a i. rewrite Hheap. auto.
Qed.

Lemma created_extends (k : kind) (id : string) (w : World) :
  kind_cache k (conn w) !! id = None -> extends w (created k id w).
Proof.
  intros Hfresh. split.
  - intros k' id' a Hin. simpl.
    destruct (decide (k = k')) as [<-|Hk].
    + rewrite kind_cache_store_same. rewrite lookup_insert_ne; [exact Hin|].
      intros <-. rewrite Hfresh in Hin. discriminate.
    + rewrite kind_cache_store_other by exact Hk. exact Hin.
  - intros a i Hi. simpl. apply lookup_app_l_Some. exact Hi.
Qed.

Lemma grows_ret {A} (a : A) : grows (mret a : M A).
Proof. intros w. split; [apply extends_refl | auto]. Qed.

Lemma grows_raise {A} (e : exn) : grows (raise e : M A).
Proof. intros w. split; [apply extends_refl | auto]. Qed.

Lemma grows_lift {A} (r : res A) : grows (lift r).
Proof. intros w. split; [apply extends_refl | auto]. Qed.

Lemma grows_read {A} (f : Connection -> res A) : grows (read f).
Proof. intros w. split; [apply extends_refl | auto]. Qed.

Lemma grows_bind {A B} (m : M A) (k : A -> M B) :
  grows m -> (forall a, grows (k a)) -> grows (m ≫= k).
Proof.
  intros Hm Hk w. unfold mbind, M_bind.
  destruct (Hm w) as [Hext Hinv].
  destruct (m w) as [[a|e] w']; simpl in *; [|split; assumption].
  destruct (Hk a w') as [Hext' Hinv']. split.
  - exact (extends_trans _ _ _ Hext Hext').
  - auto.
Qed.

Lemma grows_for_each {A B} (f : A -> M B) (l : list A) :
  (forall x, grows (f x)) -> grows (for_each f l).
Proof.
  intros Hf. induction l as [|x l IH]; simpl; [apply grows_ret|].
  apply grows_bind; [apply Hf|]. intros y.
  apply grows_bind; [exact IH|]. intros ys. apply grows_ret.
Qed.

Lemma grows_constructs (k : kind) (id : string) (m : M addr) :
  (forall w, constructs k id w (m w)) -> grows m.
Proof.
  intros Hm w. split.
  - destruct (Hm w) as [[e ->]|[Hfresh ->]]; simpl;
      [apply extends_refl | exact (created_extends _ _ _ Hfresh)].
  - exact (constructs_preserves_invariant _ _ _ _ (Hm w)).
Qed.

Lemma User_get_grows (id : string) : grows (User_get id).
Proof.
  intros w. pose proof (User_get_cases id w) as H.
  destruct (_users (conn w) !! id); rewrite H.
  - split; [apply extends_refl | auto].
  - exact (grows_constructs KUser id _ (User_init_constructs id) w).
Qed.

Lemma Device_get_grows (id : string) : grows (Device_get id).
Proof.
  intros w. pose proof (Device_get_cases id w) as H.
  destruct (_devices (conn w) !! Device_clean_id id); rewrite H.
  - split; [apply extends_refl | auto].
  - exact (grows_constructs KDevice _ _ (Device_init_constructs _) w).
Qed.

Lemma Structure_get_grows (id : string) : grows (Structure_get id).
Proof.
  intros w. pose proof (Structure_get_cases id w) as H.
  destruct (_structures (conn w) !! Structure_clean_id id); rewrite H.
  - split; [apply extends_refl | auto].
  - exact (grows_constructs KStructure _ _ (Structure_init_constructs _) w).
Qed.

Ltac grows_step :=
  first [ apply User_get_grows | apply Device_get_grows | apply Structure_get_grows
        | apply grows_ret | apply grows_lift | apply grows_read | apply grows_raise
        | apply grows_for_each; intros ?
        | apply grows_bind; [|intros ?] ].

Lemma Connection_devices_grows : grows Connection_devices.
Proof. unfold Connection_devices. repeat grows_step. Qed.

Lemma Connection_links_grows : grows Connection_links.
Proof. unfold Connection_links. repeat grows_step. Qed.

Lemma Connection_users_grows : grows Connection_users.
Proof. unfold Connection_users. repeat grows_step. Qed.

Lemma User_structures_grows (self : User) : grows (User_structures self).
Proof. unfold User_structures. repeat grows_step. Qed.

Lemma Structure_devices_grows (self : Structure) : grows (Structure_devices self).
Proof. unfold Structure_devices. repeat grows_step. Qed.

Lemma Device_structure_grows (self : Device) : grows (Device_structure self).
Proof. unfold Device_structure. repeat grows_step. Qed.

Lemma Device_attr_structure_world (self : Device) (w : World) :
  (Device_attr_structure self w).2 = (Device_structure self w).2.
Proof.
  unfold Device_attr_structure.
  destruct (Device_structure self w) as [[v|[]] w']; reflexivity.
Qed.

Lemma run_extends (c : call) (w : World) : extends w (run c w).
Proof.
  destruct c as [| |id|id|id|id|id|id|id|id|self|self value|self|self value
                |self value|self];
    try (match goal with
         | |- extends _ (run ?c _) =>
             destruct (write_keeps c w eq_refl) as (Hconn & Hheap & _)
         end;
         apply extends_same; [intros k; rewrite Hconn; reflexivity | exact Hheap]);
    simpl.
  - destruct (Connection_login_keeps w) as [Hheap Hcache].
    exact (extends_same _ _ Hcache Hheap).
  - destruct (Connection_update_status_keeps w) as [Hheap Hcache].
    exact (extends_same _ _ Hcache Hheap).
  - apply User_get_grows.
  - exact (proj1 (grows_constructs KUser id _ (User_init_constructs id) w)).
  - apply extends_refl.
  - apply extends_refl.
  - apply Device_get_grows.
  - exact (proj1 (grows_constructs KDevice _ _ (Device_init_constructs id) w)).
  - apply Structure_get_grows.
  - exact (proj1 (grows_constructs KStructure _ _ (Structure_init_constructs id) w)).
  - apply extends_refl.
Qed.

Lemma perform_grows (a : action) (w : World) :
  extends w (perform a w) /\
  (identity_invariant w -> identity_invariant (perform a w)).
Proof.
  destruct a as [c| | | |self|self|self|self]; simpl.
  - split; [apply run_extends | apply run_preserves_invariant].
  - apply Connection_devices_grows.
  - apply Connection_links_grows.
  - apply Connection_users_grows.
  - apply User_structures_grows.
  - apply User_get_grows.
  - rewrite Device_attr_structure_world. apply Device_structure_grows.
  - apply Structure_devices_grows.
Qed.

Lemma perform_all_grows (actions : list action) (w : World) :
  extends w (perform_all actions w) /\
  (identity_invariant w -> identity_invariant (perform_all actions w)).
Proof.
  revert w. induction actions as [|a actions IH]; intros w; simpl.
  - split; [apply extends_refl | auto].
  - destruct (perform_grows a w) as [Hext Hinv].
    destruct (IH (perform a w)) as [Hext' Hinv']. split.
    + exact (extends_trans _ _ _ Hext Hext').
    + auto.
Qed.

(** X10.  An instance stays cached for the life of the connection.
    Whatever the client does next (logins, refreshes of the snapshot,
    writes, constructor calls, the collection properties), [get] with
    the id returns the object that was cached, also when the new
    snapshot has no such id any more; the instances stay where they are,
    and no two instances of one kind and id come to exist. *)
Theorem cached_instances_stay (actions : list action) (w : World) (id : string)
    (a : addr) :
  let w' := perform_all actions w in
  (_users (conn w) !! id = Some a -> User_get id w' = (Ok a, w')) /\
  (_devices (conn w) !! Device_clean_id id = Some a -> Device_get id w' = (Ok a, w')) /\
  (_structures (conn w) !! Structure_clean_id id = Some a ->
     Structure_get id w' = (Ok a, w')) /\
  (forall i, heap w !! a = Some i -> heap w' !! a = Some i) /\
  (identity_invariant w ->
     forall (b c : addr) (i : Instance),
       heap w' !! b = Some i -> heap w' !! c = Some i -> b = c).
Proof.
  intros w'. destruct (perform_all_grows actions w) as [[Hcache Hheap] Hinv].
  fold w' in Hcache, Hheap, Hinv.
  split; [|split; [|split; [|split]]].
  - intros Hin. pose proof (User_get_cases id w') as H.
    pose proof (Hcache KUser id a Hin) as Hc. simpl in Hc. rewrite Hc in H. exact H.
  - intros Hin. pose proof (Device_get_cases id w') as H.
    pose proof (Hcache KDevice _ a Hin) as Hc. simpl in Hc. rewrite Hc in H. exact H.
  - intros Hin. pose proof (Structure_get_cases id w') as H.
    pose proof (Hcache KStructure _ a Hin) as Hc. simpl in Hc. rewrite Hc in H. exact H.
  - intros i. apply Hheap.
  - intros Hw b c i. exact (invariant_one_instance w' b c i (Hinv Hw)).
Qed.

(** *** The collections of the connection *)

Lemma dict_set_elem {V} (k : string) (v : V) (d : list (string * V)) (kv : string * V) :
  kv ∈ dict_set k v d -> kv = (k, v) \/ kv ∈ d.
Proof.
  induction d as [|[k' v'] d IH]; simpl.
  - intros H. apply list_elem_of_singleton in H. left. exact H.
  - destruct (String.eqb_spec k' k) as [->|Hne]; intros H;
      apply elem_of_cons in H as [H|H].
    + left. exact H.
    + right. apply elem_of_cons. right. exact H.
    + right. apply elem_of_cons. left. exact H.
    + destruct (IH H) as [H'|H']; [left; exact H'|].
      right. apply elem_of_cons. right. exact H'.
Qed.

Lemma dict_set_keys {V} (k : string) (v : V) (d : list (string * V)) (k0 : string) :
  k0 ∈ (dict_set k v d).*1 <-> k0 = k \/ k0 ∈ d.*1.
Proof.
  induction d as [|[k' v'] d IH]; simpl.
  - rewrite list_elem_of_singleton. split; [auto|]. intros [H|H]; [exact H|].
    apply elem_of_nil in H. contradiction.
  - destruct (String.eqb_spec k' k) as [->|Hne]; simpl; rewrite !elem_of_cons.
    + tauto.
    + rewrite IH. tauto.
Qed.

Lemma dict_of_elem_from {V} (items d : list (string * V)) (kv : string * V) :
  kv ∈ foldl (λ d kv, dict_set kv.1 kv.2 d) d items -> kv ∈ d \/ kv ∈ items.
Proof.
  revert d. induction items as [|[k v] items IH]; intros d; simpl; [auto|].
  intros H. destruct (IH _ H) as [H'|H'].
  - destruct (dict_set_elem _ _ _ _ H') as [->|H'']; [|left; exact H''].
    right. apply elem_of_cons. left. reflexivity.
  - right. apply elem_of_cons. right. exact H'.
Qed.

Lemma dict_of_keys_from {V} (items d : list (string * V)) (k0 : string) :
  k0 ∈ (foldl (λ d kv, dict_set kv.1 kv.2 d) d items).*1 <-> k0 ∈ d.*1 \/ k0 ∈ items.*1.
Proof.
  revert d. induction items as [|[k v] items IH]; intros d; simpl.
  - split; [auto|]. intros [H|H]; [exact H|]. apply elem_of_nil in H. contradiction.
  - rewrite IH, dict_set_keys, elem_of_cons. simpl. tauto.
Qed.

Lemma dict_of_elem {V} (items : list (string * V)) (kv : string * V) :
  kv ∈ dict_of items -> kv ∈ items.
Proof.
  intros H. destruct (dict_of_elem_from _ _ _ H) as [H'|H']; [|exact H'].
  apply elem_of_nil in H'. contradiction.
Qed.

Lemma dict_of_keys {V} (items : list (string * V)) (k0 : string) :
  k0 ∈ (dict_of items).*1 <-> k0 ∈ items.*1.
Proof.
  unfold dict_of. rewrite dict_of_keys_from. simpl. split; [|auto].
  intros [H|H]; [|exact H]. apply elem_of_nil in H. contradiction.
Qed.

Lemma dict_lookup_key (k : string) (d : list (string * pyval)) :
  k ∈ d.*1 <-> is_Some (dict_lookup k d).
Proof.
  induction d as [|[k' v] d IH]; simpl.
  - split; [intros H; apply elem_of_nil in H; contradiction | intros [x [=]]].
  - rewrite elem_of_cons. destruct (String.eqb_spec k' k) as [->|Hne].
    + split; [eauto | auto].
    + rewrite <- IH. split; [|auto]. intros [H|H]; [congruence | exact H].
Qed.

Lemma bind_ok {A B} (m : M A) (k : A -> M B) (w w' : World) (a : A) :
  m w = (Ok a, w') -> (m ≫= k) w = k a w'.
Proof. intros H. unfold mbind, M_bind. rewrite H. reflexivity. Qed.

Lemma bind_raise {A B} (m : M A) (k : A -> M B) (w w' : World) (e : exn) :
  m w = (Raise e, w') -> (m ≫= k) w = (Raise e, w').
Proof. intros H. unfold mbind, M_bind. rewrite H. reflexivity. Qed.

Lemma get_pair_ok (get : string -> M addr) (id : string) (w w' : World) (a : addr) :
  get id w = (Ok a, w') -> (a ← get id; mret (id, a)) w = (Ok (id, a), w').
Proof. intros H. rewrite (bind_ok _ _ _ _ _ H). reflexivity. Qed.

(** Going through ids with a [get] that returns for each of them. *)
Lemma for_each_get (get : string -> M addr) (k : kind) (key : string -> string)
    (ok : World -> string -> Prop) (ids : list string) (w : World) :
  (forall id, grows (get id)) ->
  (forall id w, ok w id ->
     exists a w1, get id w = (Ok a, w1) /\ kind_cache k (conn w1) !! key id = Some a /\
                  forall id', ok w id' -> ok w1 id') ->
  (forall id, id ∈ ids -> ok w id) ->
  exists items w1,
    for_each (λ id, a ← get id; mret (id, a)) ids w = (Ok items, w1) /\
    items.*1 = ids /\
    (forall id a, (id, a) ∈ items -> kind_cache k (conn w1) !! key id = Some a).
Proof.
  intros Hgrows Hget. revert w.
  induction ids as [|id ids IH]; intros w Hok; simpl.
  - exists [], w. repeat split. intros id a H. apply elem_of_nil in H. contradiction.
  - destruct (Hget id w (Hok id (list_elem_of_here _ _))) as (a & w' & Hrun & Hin & Hok').
    destruct (IH w') as (items & w1 & Hrest & Hkeys & Hitems).
    { intros id' H'. apply Hok', Hok. apply elem_of_cons. right. exact H'. }
    exists ((id, a) :: items), w1. split; [|split].
    + rewrite (bind_ok _ _ _ _ _ (get_pair_ok get id w w' a Hrun)).
      rewrite (bind_ok _ _ _ _ _ Hrest). reflexivity.
    + rewrite fmap_cons, Hkeys. reflexivity.
    + intros id' a' H. apply elem_of_cons in H as [[= -> ->]|H]; [|exact (Hitems _ _ H)].
      destruct (grows_for_each (λ id, a ← get id; mret (id, a)) ids) with (w := w')
        as [[Hcache _] _].
      { intros x. apply grows_bind; [apply Hgrows | intros ?; apply grows_ret]. }
      rewrite Hrest in Hcache. exact (Hcache _ _ _ Hin).
Qed.

(** Going through ids that are all cached changes nothing. *)
Lemma for_each_get_cached (get : string -> M addr) (k : kind) (key : string -> string)
    (items : list (string * addr)) (w : World) :
  (forall id w a, kind_cache k (conn w) !! key id = Some a -> get id w = (Ok a, w)) ->
  (forall id a, (id, a) ∈ items -> kind_cache k (conn w) !! key id = Some a) ->
  for_each (λ id, a ← get id; mret (id, a)) items.*1 w = (Ok items, w).
Proof.
  intros Hget. induction items as [|[id a] items IH]; intros Hitems; simpl; [reflexivity|].
  rewrite (bind_ok _ _ _ _ _
             (get_pair_ok get id w w a
                (Hget id w a (Hitems id a (list_elem_of_here _ _))))).
  rewrite (bind_ok _ _ w w items); [reflexivity|].
  apply IH. intros id' a' H. apply Hitems. apply elem_of_cons. right. exact H.
Qed.

Lemma keeps_snapshot_bind {A B} (m : M A) (k : A -> M B) :
  keeps_snapshot m -> (forall a, keeps_snapshot (k a)) -> keeps_snapshot (m ≫= k).
Proof.
  intros Hm Hk w. unfold mbind, M_bind. pose proof (Hm w) as H.
  destruct (m w) as [[a|e] w']; simpl in *; [|exact H].
  rewrite (Hk a w'). exact H.
Qed.

Lemma keeps_snapshot_for_each {A B} (f : A -> M B) (l : list A) :
  (forall x, keeps_snapshot (f x)) -> keeps_snapshot (for_each f l).
Proof.
  intros Hf. induction l as [|x l IH]; simpl; [intros w; reflexivity|].
  apply keeps_snapshot_bind; [apply Hf|]. intros y.
  apply keeps_snapshot_bind; [exact IH|]. intros ys w. reflexivity.
Qed.

Lemma keeps_snapshot_constructs (k : kind) (id : string) (m : M addr) :
  (forall w, constructs k id w (m w)) -> keeps_snapshot m.
Proof. intros Hm w. destruct (Hm w) as [[e ->]|[_ ->]]; reflexivity. Qed.

Lemma User_get_keeps_snapshot (id : string) : keeps_snapshot (User_get id).
Proof.
  intros w. pose proof (User_get_cases id w) as H.
  destruct (_users (conn w) !! id); rewrite H; [reflexivity|].
  exact (keeps_snapshot_constructs KUser id _ (User_init_constructs id) w).
Qed.

Lemma Device_get_keeps_snapshot (id : string) : keeps_snapshot (Device_get id).
Proof.
  intros w. pose proof (Device_get_cases id w) as H.
  destruct (_devices (conn w) !! Device_clean_id id); rewrite H; [reflexivity|].
  exact (keeps_snapshot_constructs KDevice _ _ (Device_init_constructs _) w).
Qed.

Lemma get_pairs_keep_snapshot (get : string -> M addr) (ids : list string) :
  (forall id, keeps_snapshot (get id)) ->
  keeps_snapshot (for_each (λ id, a ← get id; mret (id, a)) ids).
Proof.
  intros Hget. apply keeps_snapshot_for_each. intros id.
  apply keeps_snapshot_bind; [apply Hget|]. intros a w. reflexivity.
Qed.

Lemma missing_from_status_same (section id : string) (c c' : Connection) :
  status c' = status c ->
  missing_from_status section id c' = missing_from_status section id c.
Proof. intros H. unfold missing_from_status. rewrite H. reflexivity. Qed.

Lemma missing_from_status_dict (section id : string) (c : Connection)
    (st : pyval) (entries : list (string * pyval)) :
  status c = Some st ->
  py_getitem st section = Ok (PDict entries) ->
  missing_from_status section id c =
    Ok (match dict_lookup id entries with Some _ => false | None => true end).
Proof.
  intros Hst Hsection. unfold missing_from_status. rewrite Hst. simpl.
  rewrite Hsection. simpl. destruct (dict_lookup id entries); reflexivity.
Qed.

(** X11.  When the snapshot has a user section, [Connection.users]
    returns a dict with exactly the ids of the section; each value is
    the instance cached for its id ([User.get] returns it); and reading
    the property again returns the same dict and changes nothing. *)
Theorem Connection_users_has_every_user (w : World) (st : pyval)
    (users : list (string * pyval)) :
  status (conn w) = Some st ->
  py_getitem st "user" = Ok (PDict users) ->
  exists result w1,
    Connection_users w = (Ok result, w1) /\
    (forall id, id ∈ result.*1 <-> is_Some (dict_lookup id users)) /\
    (forall id a, (id, a) ∈ result -> User_get id w1 = (Ok a, w1)) /\
    Connection_users w1 = (Ok result, w1).
Proof.
  intros Hst Husers.
  destruct (for_each_get User_get KUser (λ id, id) (λ _ _, True) users.*1 w)
    as (items & w1 & Hrun & Hkeys & Hitems).
  { apply User_get_grows. }
  { intros id w0 _. destruct (User_get_returns id w0) as (a & w' & Hget & Hin).
    exists a, w'. repeat split; assumption. }
  { intros id _. exact I. }
  assert (status (conn w1) = Some st) as Hst1.
  { pose proof (get_pairs_keep_snapshot User_get users.*1 User_get_keeps_snapshot w) as H.
    rewrite Hrun in H. simpl in H. rewrite H. exact Hst. }
  assert (forall w0, status (conn w0) = Some st ->
            Connection_users w0 =
              (items0 ← for_each (λ id, a ← User_get id; mret (id, a)) users.*1;
               mret (dict_of items0)) w0) as Hunfold.
  { intros w0 H0. unfold Connection_users.
    unfold mbind at 1, M_bind at 1, read. rewrite H0. simpl.
    unfold mbind at 1, M_bind at 1, lift. rewrite Husers. reflexivity. }
  exists (dict_of items), w1. split; [|split; [|split]].
  - rewrite (Hunfold w Hst), (bind_ok _ _ _ _ _ Hrun). reflexivity.
  - intros id. rewrite dict_of_keys, Hkeys. apply dict_lookup_key.
  - intros id a Hin. apply dict_of_elem in Hin.
    pose proof (User_get_cases id w1) as H.
    pose proof (Hitems id a Hin) as Hc. simpl in Hc. rewrite Hc in H. exact H.
  - rewrite (Hunfold w1 Hst1). rewrite <- Hkeys.
    rewrite (bind_ok _ _ w1 w1 items); [reflexivity|].
    apply (for_each_get_cached User_get KUser (λ id, id)); [|exact Hitems].
    intros id w0 a Hin. pose proof (User_get_cases id w0) as H.
    simpl in Hin. rewrite Hin in H. exact H.
Qed.

(** X12.  When every device of the snapshot has a shared entry (and no
    id of the device section begins with the prefix), [Connection.devices]
    returns a dict with exactly the ids of the device section; each
    value is the instance cached for its id; and reading the property
    again returns the same dict and changes nothing. *)
Theorem Connection_devices_has_every_device (w : World) (st : pyval)
    (devices shared : list (string * pyval)) :
  status (conn w) = Some st ->
  py_getitem st "device" = Ok (PDict devices) ->
  py_getitem st "shared" = Ok (PDict shared) ->
  (forall id, id ∈ devices.*1 ->
     String.prefix "device." id = false /\ is_Some (dict_lookup id shared)) ->
  exists result w1,
    Connection_devices w = (Ok result, w1) /\
    (forall id, id ∈ result.*1 <-> is_Some (dict_lookup id devices)) /\
    (forall id a, (id, a) ∈ result -> Device_get id w1 = (Ok a, w1)) /\
    Connection_devices w1 = (Ok result, w1).
Proof.
  intros Hst Hdevices Hshared Hall.
  pose (ok := λ (w0 : World) (id : string),
          status (conn w0) = Some st /\ String.prefix "device." id = false /\
          is_Some (dict_lookup id devices) /\ is_Some (dict_lookup id shared)).
  destruct (for_each_get Device_get KDevice Device_clean_id ok devices.*1 w)
    as (items & w1 & Hrun & Hkeys & Hitems).
  { apply Device_get_grows. }
  { intros id w0 (H0 & Hplain & [d Hd] & [s0 Hs]).
    pose proof (Device_clean_id_plain id Hplain) as Hclean.
    assert (Device_clean_id (Device_clean_id id) = Device_clean_id id) as Hstable
      by (rewrite Hclean; exact Hclean).
    destruct (Device_get_returns id w0 Hstable) as (a & w' & Hget).
    { rewrite (missing_from_status_dict _ _ _ _ _ H0 Hdevices), Hclean, Hd. reflexivity. }
    { rewrite (missing_from_status_dict _ _ _ _ _ H0 Hshared), Hclean, Hs. reflexivity. }
    exists a, w'. split; [exact Hget|]. split.
    - exact (proj1 (Device_get_again id w0 w' a Hstable Hget)).
    - intros id' (_ & H').
      pose proof (Device_get_keeps_snapshot id w0) as Hsame. rewrite Hget in Hsame.
      simpl in Hsame. split; [rewrite Hsame; exact H0 | exact H']. }
  { intros id Hin. destruct (Hall id Hin) as [Hplain Hs].
    repeat split; [exact Hst | exact Hplain | apply dict_lookup_key; exact Hin | exact Hs]. }
  assert (status (conn w1) = Some st) as Hst1.
  { pose proof (get_pairs_keep_snapshot Device_get devices.*1 Device_get_keeps_snapshot w)
      as H.
    rewrite Hrun in H. simpl in H. rewrite H. exact Hst. }
  assert (forall w0, status (conn w0) = Some st ->
            Connection_devices w0 =
              (items0 ← for_each (λ id, a ← Device_get id; mret (id, a)) devices.*1;
               mret (dict_of items0)) w0) as Hunfold.
  { intros w0 H0. unfold Connection_devices.
    unfold mbind at 1, M_bind at 1, read. rewrite H0. simpl.
    unfold mbind at 1, M_bind at 1, lift. rewrite Hdevices. reflexivity. }
  exists (dict_of items), w1. split; [|split; [|split]].
  - rewrite (Hunfold w Hst), (bind_ok _ _ _ _ _ Hrun). reflexivity.
  - intros id. rewrite dict_of_keys, Hkeys. apply dict_lookup_key.
  - intros id a Hin. apply dict_of_elem in Hin.
    pose proof (Device_get_cases id w1) as H.
    pose proof (Hitems id a Hin) as Hc. simpl in Hc. rewrite Hc in H. exact H.
  - rewrite (Hunfold w1 Hst1). rewrite <- Hkeys.
    rewrite (bind_ok _ _ w1 w1 items); [reflexivity|].
    apply (for_each_get_cached Device_get KDevice Device_clean_id); [|exact Hitems].
    intros id w0 a Hin. pose proof (Device_get_cases id w0) as H.
    simpl in Hin. rewrite Hin in H. exact H.
Qed.

Lemma Device_get_outcome (id : string) (w : World) (st : pyval)
    (devices shared : list (string * pyval)) :
  status (conn w) = Some st ->
  py_getitem st "device" = Ok (PDict devices) ->
  py_getitem st "shared" = Ok (PDict shared) ->
  Device_get id w = (Raise (RuntimeError ""), w) \/
  (exists a, Device_get id w = (Ok a, w) /\
             _devices (conn w) !! Device_clean_id id = Some a) \/
  (Device_get id w =
     (Ok (length (heap w)), created KDevice (Device_clean_id (Device_clean_id id)) w) /\
   is_Some (dict_lookup (Device_clean_id (Device_clean_id id)) shared)).
Proof.
  intros Hst Hdevices Hshared.
  pose proof (Device_get_cases id w) as H.
  destruct (_devices (conn w) !! Device_clean_id id) as [a|] eqn:E.
  - right. left. exists a. split; [exact H | reflexivity].
  - rewrite H. unfold Device_init, mbind, M_bind, read, raise; simpl.
    destruct (_devices (conn w) !! Device_clean_id (Device_clean_id id));
      [left; reflexivity|].
    rewrite (missing_from_status_dict _ _ _ _ _ Hst Hdevices).
    destruct (dict_lookup _ devices); [|left; reflexivity].
    rewrite (missing_from_status_dict _ _ _ _ _ Hst Hshared).
    destruct (dict_lookup _ shared) as [x|] eqn:Es; [|left; reflexivity].
    right. right. split; [reflexivity | eauto].
Qed.

Lemma for_each_devices_raises (ids : list string) (w : World) (st : pyval)
    (devices shared : list (string * pyval)) (id : string) :
  status (conn w) = Some st ->
  py_getitem st "device" = Ok (PDict devices) ->
  py_getitem st "shared" = Ok (PDict shared) ->
  id ∈ ids ->
  String.prefix "device." id = false ->
  dict_lookup id shared = None ->
  _devices (conn w) !! id = None ->
  exists w1,
    for_each (λ id, a ← Device_get id; mret (id, a)) ids w = (Raise (RuntimeError ""), w1).
Proof.
  intros Hst Hdevices Hshared Hin Hplain Hnone. revert w Hst.
  induction ids as [|h ids IH]; intros w Hst Hfresh;
    [apply elem_of_nil in Hin; contradiction|].
  pose proof (Device_clean_id_plain id Hplain) as Hclean.
  simpl.
  destruct (Device_get_outcome h w st devices shared Hst Hdevices Hshared)
    as [Hraise|[(a & Hget & Hcached)|[Hget Hs]]].
  - exists w. apply bind_raise. apply bind_raise. exact Hraise.
  - apply elem_of_cons in Hin as [->|Hin].
    { rewrite Hclean, Hfresh in Hcached. discriminate. }
    destruct (IH Hin w Hst Hfresh) as (w1 & Hrest).
    exists w1. rewrite (bind_ok _ _ _ _ _ (get_pair_ok Device_get h w w a Hget)).
    apply bind_raise. exact Hrest.
  - assert (Device_clean_id (Device_clean_id h) ≠ id) as Hne.
    { intros Heq. rewrite Heq, Hnone in Hs. destruct Hs as [x [=]]. }
    apply elem_of_cons in Hin as [->|Hin].
    { rewrite !Hclean in Hne. contradiction. }
    destruct (IH Hin (created KDevice (Device_clean_id (Device_clean_id h)) w))
      as (w1 & Hrest); [exact Hst| |].
    { simpl. rewrite lookup_insert_ne by exact Hne. exact Hfresh. }
    exists w1. rewrite (bind_ok _ _ _ _ _ (get_pair_ok Device_get h w _ _ Hget)).
    apply bind_raise. exact Hrest.
Qed.

(** X13.  [Connection.devices] fails as a whole on one incomplete
    device: when some id of the device section has no shared entry (and
    no instance cached from before), the property raises
    [RuntimeError] and returns no dict; the instances that were cached
    stay cached. *)
Theorem Connection_devices_needs_every_shared_entry (w : World) (st : pyval)
    (devices shared : list (string * pyval)) (id : string) :
  status (conn w) = Some st ->
  py_getitem st "device" = Ok (PDict devices) ->
  py_getitem st "shared" = Ok (PDict shared) ->
  is_Some (dict_lookup id devices) ->
  String.prefix "device." id = false ->
  dict_lookup id shared = None ->
  _devices (conn w) !! id = None ->
  exists w1,
    Connection_devices w = (Raise (RuntimeError ""), w1) /\
    extends w w1.
Proof.
  intros Hst Hdevices Hshared Hin Hplain Hnone Hfresh.
  apply dict_lookup_key in Hin.
  destruct (for_each_devices_raises devices.*1 w st devices shared id
              Hst Hdevices Hshared Hin Hplain Hnone Hfresh) as (w1 & Hrun).
  assert (Connection_devices w = (Raise (RuntimeError ""), w1)) as Hraise.
  { unfold Connection_devices.
    unfold mbind at 1, M_bind at 1, read. rewrite Hst. simpl.
    unfold mbind at 1, M_bind at 1, lift. rewrite Hdevices. simpl.
    unfold mbind at 1, M_bind at 1. simpl.
    apply bind_raise. exact Hrun. }
  exists w1. split; [exact Hraise|].
  pose proof (proj1 (Connection_devices_grows w)) as H. rewrite Hraise in H. exact H.
Qed.

(** *** The structure of a device *)

Lemma Structure_get_keeps_snapshot (id : string) : keeps_snapshot (Structure_get id).
Proof.
  intros w. pose proof (Structure_get_cases id w) as H.
  destruct (_structures (conn w) !! Structure_clean_id id); rewrite H; [reflexivity|].
  exact (keeps_snapshot_constructs KStructure _ _ (Structure_init_constructs _) w).
Qed.

(** X14.  [device.structure] follows the link section.  When the link
    of the device names a structure of the snapshot, the access returns
    that structure's instance, the one [Structure.get] returns for the
    name, and a second access returns the same object and changes
    nothing.  When the link section has no entry for the device the
    access raises [KeyError].  When the entry names a value of the
    snapshot that is no string (a number, a list, ...), the getter fails
    with [AttributeError] and the access gives what
    [__getattr__('structure')] gives. *)
Theorem Device_structure_follows_the_link (self : Device) (w : World)
    (st links : pyval) :
  status (conn w) = Some st ->
  py_getitem st "link" = Ok links ->
  (forall link sid,
     py_getitem links (device_id self) = Ok link ->
     py_getitem link "structure" = Ok (PStr sid) ->
     Structure_clean_id (Structure_clean_id sid) = Structure_clean_id sid ->
     missing_from_status "structure" (Structure_clean_id sid) (conn w) = Ok false ->
     exists a w1,
       Device_attr_structure self w = (Ok (PObj a), w1) /\
       Structure_get sid w1 = (Ok a, w1) /\
       Device_attr_structure self w1 = (Ok (PObj a), w1)) /\
  (py_getitem links (device_id self) = Raise KeyError ->
     Device_attr_structure self w = (Raise KeyError, w)) /\
  (forall link v,
     py_getitem links (device_id self) = Ok link ->
     py_getitem link "structure" = Ok v ->
     (forall sid, v ≠ PStr sid) ->
     (forall a, v ≠ PObj a) ->
     Device_attr_structure self w =
       (Device_getattr recursion_limit (conn w) self "structure", w)).
Proof.
  intros Hst Hlinks. split; [|split].
  - intros link sid Hlink Hsid Hstable Hknown.
    destruct (Structure_get_returns sid w Hstable Hknown) as (a & w1 & Hget).
    destruct (Structure_get_again sid w w1 a Hstable Hget) as [_ Hagain].
    assert (forall w0, status (conn w0) = Some st ->
              forall w2, Structure_get sid w0 = (Ok a, w2) ->
              Device_attr_structure self w0 = (Ok (PObj a), w2)) as Hrun.
    { intros w0 H0 w2 H2. unfold Device_attr_structure, Device_structure.
      unfold mbind at 1, M_bind at 1, read. rewrite H0. simpl.
      rewrite Hlinks. simpl. rewrite Hlink. simpl. rewrite Hsid. simpl.
      unfold mbind at 1, M_bind at 1, lift. simpl.
      rewrite (bind_ok _ _ _ _ _ H2). reflexivity. }
    exists a, w1. split; [exact (Hrun w Hst w1 Hget)|]. split; [exact Hagain|].
    apply Hrun; [|exact Hagain].
    pose proof (Structure_get_keeps_snapshot sid w) as H. rewrite Hget in H.
    simpl in H. rewrite H. exact Hst.
  - intros Hlink. unfold Device_attr_structure, Device_structure.
    unfold mbind at 1, M_bind at 1, read. rewrite Hst. simpl.
    rewrite Hlinks. simpl. rewrite Hlink. reflexivity.
  - intros link v Hlink Hv Hnot _. unfold Device_attr_structure, Device_structure.
    unfold mbind at 1, M_bind at 1, read. rewrite Hst. simpl.
    rewrite Hlinks. simpl. rewrite Hlink. simpl. rewrite Hv. simpl.
    unfold mbind at 1, M_bind at 1, lift.
    destruct v; try reflexivity. exfalso. exact (Hnot s eq_refl).
Qed.

(** *** The devices of a structure and the structures of a user *)

Lemma for_each_label (get : string -> M addr) (label : string -> string)
    (ids : list string) (w : World) :
  for_each (λ v, id ← lift (py_str v); a ← get id; mret (label id, a)) (PStr <$> ids) w =
  (items ← for_each (λ id, a ← get id; mret (id, a)) ids;
   mret ((λ p : string * addr, (label p.1, p.2)) <$> items)) w.
Proof.
  revert w. induction ids as [|id ids IH]; intros w; [reflexivity|].
  rewrite fmap_cons. simpl.
  unfold mbind, M_bind, lift, mret, M_ret in *. simpl.
  destruct (get id w) as [[a|e] w']; [|reflexivity].
  rewrite IH. destruct (for_each _ ids w') as [[items|e] w'']; reflexivity.
Qed.

Lemma labelled_gets (get : string -> M addr) (k : kind) (clean : string -> string)
    (ok : World -> string -> Prop) (ids : list string) (w : World) :
  (forall id, grows (get id)) ->
  (forall id, keeps_snapshot (get id)) ->
  (forall id w, ok w id ->
     exists a w1, get id w = (Ok a, w1) /\ kind_cache k (conn w1) !! clean id = Some a /\
                  forall id', ok w id' -> ok w1 id') ->
  (forall id w a, kind_cache k (conn w) !! clean id = Some a -> get id w = (Ok a, w)) ->
  (forall id, id ∈ ids -> ok w id) ->
  let body := λ v, id ← lift (py_str v); a ← get id; mret (clean id, a) in
  exists items w1,
    for_each body (PStr <$> ids) w = (Ok items, w1) /\
    for_each body (PStr <$> ids) w1 = (Ok items, w1) /\
    status (conn w1) = status (conn w) /\
    (forall key, key ∈ items.*1 <-> exists id, id ∈ ids /\ key = clean id) /\
    (forall key a, (key, a) ∈ items ->
       exists id, id ∈ ids /\ key = clean id /\
                  kind_cache k (conn w1) !! clean id = Some a).
Proof.
  intros Hgrows Hkeeps Hget Hcached Hok body.
  destruct (for_each_get get k clean ok ids w Hgrows Hget Hok)
    as (items & w1 & Hrun & Hkeys & Hitems).
  exists ((λ p : string * addr, (clean p.1, p.2)) <$> items), w1.
  split; [|split; [|split; [|split]]].
  - unfold body. rewrite for_each_label, (bind_ok _ _ _ _ _ Hrun). reflexivity.
  - unfold body. rewrite for_each_label. rewrite <- Hkeys.
    rewrite (bind_ok _ _ w1 w1 items); [reflexivity|].
    exact (for_each_get_cached get k clean items w1 Hcached Hitems).
  - pose proof (get_pairs_keep_snapshot get ids Hkeeps w) as H.
    rewrite Hrun in H. exact H.
  - intros key. rewrite <- list_fmap_compose. rewrite <- Hkeys.
    rewrite list_elem_of_fmap. split.
    + intros ([id a] & -> & Hin). exists id. split; [|reflexivity].
      apply list_elem_of_fmap. exists (id, a). split; [reflexivity | exact Hin].
    + intros (id & Hin & ->). apply list_elem_of_fmap in Hin as ([id' a] & -> & Hin).
      exists (id', a). split; [reflexivity | exact Hin].
  - intros key a Hin. apply list_elem_of_fmap in Hin as ([id a'] & [= -> ->] & Hin).
    exists id. split; [|split; [reflexivity | exact (Hitems id a' Hin)]].
    rewrite <- Hkeys. apply list_elem_of_fmap. exists (id, a'). split; [reflexivity | exact Hin].
Qed.

(** X15.  [Structure.devices] goes through the ids that the structure
    lists, with or without the prefix.  When each of them is a device of
    the snapshot (with a shared entry), the property returns a dict
    whose keys are the cleaned ids; each value is the instance that
    [Device.get] returns for its key; and reading the property again
    returns the same dict and changes nothing. *)
Theorem Structure_devices_are_the_cached_devices (self : Structure) (w : World)
    (st section : pyval) (devices shared : list (string * pyval)) (ids : list string) :
  status (conn w) = Some st ->
  py_getitem st "device" = Ok (PDict devices) ->
  py_getitem st "shared" = Ok (PDict shared) ->
  Structure_structure (conn w) self = Ok section ->
  py_getitem section "devices" = Ok (PList (PStr <$> ids)) ->
  (forall id, id ∈ ids ->
     Device_clean_id (Device_clean_id id) = Device_clean_id id /\
     is_Some (dict_lookup (Device_clean_id id) devices) /\
     is_Some (dict_lookup (Device_clean_id id) shared)) ->
  exists result w1,
    Structure_devices self w = (Ok result, w1) /\
    (forall key, key ∈ result.*1 <-> exists id, id ∈ ids /\ key = Device_clean_id id) /\
    (forall key a, (key, a) ∈ result -> Device_get key w1 = (Ok a, w1)) /\
    Structure_devices self w1 = (Ok result, w1).
Proof.
  intros Hst Hdevices Hshared Hsection Hlist Hall.
  pose (ok := λ (w0 : World) (id : string),
          status (conn w0) = Some st /\
          Device_clean_id (Device_clean_id id) = Device_clean_id id /\
          is_Some (dict_lookup (Device_clean_id id) devices) /\
          is_Some (dict_lookup (Device_clean_id id) shared)).
  destruct (labelled_gets Device_get KDevice Device_clean_id ok ids w)
    as (items & w1 & Hrun & Hagain & Hsame & Hkeys & Hitems).
  { apply Device_get_grows. }
  { apply Device_get_keeps_snapshot. }
  { intros id w0 (H0 & Hstable & [d Hd] & [s0 Hs]).
    destruct (Device_get_returns id w0 Hstable) as (a & w' & Hget).
    { rewrite (missing_from_status_dict _ _ _ _ _ H0 Hdevices), Hd. reflexivity. }
    { rewrite (missing_from_status_dict _ _ _ _ _ H0 Hshared), Hs. reflexivity. }
    exists a, w'. split; [exact Hget|]. split.
    - exact (proj1 (Device_get_again id w0 w' a Hstable Hget)).
    - intros id' (_ & H').
      pose proof (Device_get_keeps_snapshot id w0) as Hk. rewrite Hget in Hk.
      simpl in Hk. split; [rewrite Hk; exact H0 | exact H']. }
  { intros id w0 a Hin. pose proof (Device_get_cases id w0) as H.
    simpl in Hin. rewrite Hin in H. exact H. }
  { intros id Hin. split; [exact Hst | exact (Hall id Hin)]. }
  assert (forall w0, status (conn w0) = status (conn w) ->
            Structure_devices self w0 =
              (items0 ← for_each (λ v, id ← lift (py_str v); a ← Device_get id;
                                       mret (Device_clean_id id, a)) (PStr <$> ids);
               mret (dict_of items0)) w0) as Hunfold.
  { intros w0 H0. unfold Structure_devices.
    unfold mbind at 1, M_bind at 1, read.
    assert (Structure_attr_structure (conn w0) self = Ok section) as ->.
    { unfold Structure_attr_structure. apply property_access_ok.
      unfold Structure_structure in *. rewrite H0. exact Hsection. }
    simpl. unfold mbind at 1, M_bind at 1, lift. rewrite Hlist. simpl.
    unfold mbind at 1, M_bind at 1. reflexivity. }
  exists (dict_of items), w1. split; [|split; [|split]].
  - rewrite (Hunfold w eq_refl), (bind_ok _ _ _ _ _ Hrun). reflexivity.
  - intros key. rewrite dict_of_keys. apply Hkeys.
  - intros key a Hin. apply dict_of_elem in Hin.
    destruct (Hitems key a Hin) as (id & Hid & -> & Hc).
    destruct (Hall id Hid) as (Hstable & _).
    pose proof (Device_get_cases (Device_clean_id id) w1) as H.
    rewrite Hstable in H. simpl in Hc. rewrite Hc in H. exact H.
  - rewrite (Hunfold w1 Hsame), (bind_ok _ _ _ _ _ Hagain). reflexivity.
Qed.

(** X16.  [User.structures] goes through the structure ids of the
    user's entry in the same way: when each of them is a structure of
    the snapshot, the property returns a dict whose keys are the cleaned
    ids; each value is the instance that [Structure.get] returns for its
    key; and reading the property again returns the same dict and
    changes nothing. *)
Theorem User_structures_are_the_cached_structures (self : User) (w : World)
    (st users entry : pyval) (structures : list (string * pyval)) (ids : list string) :
  status (conn w) = Some st ->
  py_getitem st "structure" = Ok (PDict structures) ->
  py_getitem st "user" = Ok users ->
  py_getitem users (user_id self) = Ok entry ->
  py_getitem entry "structures" = Ok (PList (PStr <$> ids)) ->
  (forall id, id ∈ ids ->
     Structure_clean_id (Structure_clean_id id) = Structure_clean_id id /\
     is_Some (dict_lookup (Structure_clean_id id) structures)) ->
  exists result w1,
    User_structures self w = (Ok result, w1) /\
    (forall key, key ∈ result.*1 <-> exists id, id ∈ ids /\ key = Structure_clean_id id) /\
    (forall key a, (key, a) ∈ result -> Structure_get key w1 = (Ok a, w1)) /\
    User_structures self w1 = (Ok result, w1).
Proof.
  intros Hst Hstructures Husers Hentry Hlist Hall.
  pose (ok := λ (w0 : World) (id : string),
          status (conn w0) = Some st /\
          Structure_clean_id (Structure_clean_id id) = Structure_clean_id id /\
          is_Some (dict_lookup (Structure_clean_id id) structures)).
  destruct (labelled_gets Structure_get KStructure Structure_clean_id ok ids w)
    as (items & w1 & Hrun & Hagain & Hsame & Hkeys & Hitems).
  { apply Structure_get_grows. }
  { apply Structure_get_keeps_snapshot. }
  { intros id w0 (H0 & Hstable & [d Hd]).
    destruct (Structure_get_returns id w0 Hstable) as (a & w' & Hget).
    { rewrite (missing_from_status_dict _ _ _ _ _ H0 Hstructures), Hd. reflexivity. }
    exists a, w'. split; [exact Hget|]. split.
    - exact (proj1 (Structure_get_again id w0 w' a Hstable Hget)).
    - intros id' (_ & H').
      pose proof (Structure_get_keeps_snapshot id w0) as Hk. rewrite Hget in Hk.
      simpl in Hk. split; [rewrite Hk; exact H0 | exact H']. }
  { intros id w0 a Hin. pose proof (Structure_get_cases id w0) as H.
    simpl in Hin. rewrite Hin in H. exact H. }
  { intros id Hin. split; [exact Hst | exact (Hall id Hin)]. }
  assert (forall w0, status (conn w0) = status (conn w) ->
            User_structures self w0 =
              (items0 ← for_each (λ v, id ← lift (py_str v); a ← Structure_get id;
                                       mret (Structure_clean_id id, a)) (PStr <$> ids);
               mret (dict_of items0)) w0) as Hunfold.
  { intros w0 H0. unfold User_structures.
    unfold mbind at 1, M_bind at 1, read. rewrite H0, Hst. simpl.
    rewrite Husers. simpl. rewrite Hentry. simpl. rewrite Hlist. simpl.
    unfold mbind at 1, M_bind at 1, lift. reflexivity. }
  exists (dict_of items), w1. split; [|split; [|split]].
  - rewrite (Hunfold w eq_refl), (bind_ok _ _ _ _ _ Hrun). reflexivity.
  - intros key. rewrite dict_of_keys. apply Hkeys.
  - intros key a Hin. apply dict_of_elem in Hin.
    destruct (Hitems key a Hin) as (id & Hid & -> & Hc).
    destruct (Hall id Hid) as (Hstable & _).
    pose proof (Structure_get_cases (Structure_clean_id id) w1) as H.
    rewrite Hstable in H. simpl in Hc. rewrite Hc in H. exact H.
  - rewrite (Hunfold w1 Hsame), (bind_ok _ _ _ _ _ Hagain). reflexivity.
Qed.

(** *** The links of the connection *)

Lemma link_pair_grows (item : string * pyval) : grows (link_pair item).
Proof. unfold link_pair. repeat grows_step. Qed.

Lemma link_pair_keeps_snapshot (item : string * pyval) : keeps_snapshot (link_pair item).
Proof.
  unfold link_pair.
  apply keeps_snapshot_bind; [apply Device_get_keeps_snapshot|]. intros d.
  apply keeps_snapshot_bind; [intros w; reflexivity|]. intros v.
  apply keeps_snapshot_bind; [intros w; reflexivity|]. intros sid.
  apply keeps_snapshot_bind; [apply Structure_get_keeps_snapshot|]. intros a w.
  reflexivity.
Qed.

Lemma linked_extends (w w' : World) (item : string * pyval) (pair : addr * addr) :
  extends w w' -> linked w item pair -> linked w' item pair.
Proof.
  intros [Hcache _] (sid & Hsid & Hd & Hs). exists sid.
  split; [exact Hsid|]. split.
  - exact (Hcache KDevice _ _ Hd).
  - exact (Hcache KStructure _ _ Hs).
Qed.

Lemma link_pair_cached (w : World) (item : string * pyval) (pair : addr * addr) :
  linked w item pair -> link_pair item w = (Ok pair, w).
Proof.
  intros (sid & Hsid & Hd & Hs). unfold link_pair.
  pose proof (Device_get_cases item.1 w) as H. rewrite Hd in H.
  rewrite (bind_ok _ _ _ _ _ H).
  unfold mbind at 1, M_bind at 1, lift. rewrite Hsid.
  unfold mbind at 1, M_bind at 1. simpl.
  pose proof (Structure_get_cases sid w) as H'. rewrite Hs in H'.
  rewrite (bind_ok _ _ _ _ _ H'). destruct pair; reflexivity.
Qed.

Lemma links_cached (items : list (string * pyval)) (pairs : list (addr * addr))
    (w : World) :
  Forall2 (linked w) items pairs -> for_each link_pair items w = (Ok pairs, w).
Proof.
  induction 1 as [|item pair items pairs Hhead _ IH]; simpl; [reflexivity|].
  rewrite (bind_ok _ _ _ _ _ (link_pair_cached w item pair Hhead)).
  rewrite (bind_ok _ _ _ _ _ IH). reflexivity.
Qed.

(** X17.  [Connection.links] pairs, for each entry of the link section,
    the device with the structure the entry names.  When each device is
    a device of the snapshot and each named structure a structure of the
    snapshot (ids with the prefix at most once), the property returns
    one pair per entry, in the order of the section; the two members of
    a pair are the instances that [Device.get] and [Structure.get]
    return for the ids; and reading the property again returns the same
    pairs and changes nothing. *)
Theorem Connection_links_pairs_cached_instances (w : World) (st : pyval)
    (links devices shared structures : list (string * pyval)) :
  status (conn w) = Some st ->
  py_getitem st "link" = Ok (PDict links) ->
  py_getitem st "device" = Ok (PDict devices) ->
  py_getitem st "shared" = Ok (PDict shared) ->
  py_getitem st "structure" = Ok (PDict structures) ->
  (forall item, item ∈ links ->
     Device_clean_id (Device_clean_id item.1) = Device_clean_id item.1 /\
     is_Some (dict_lookup (Device_clean_id item.1) devices) /\
     is_Some (dict_lookup (Device_clean_id item.1) shared) /\
     exists sid,
       py_getitem item.2 "structure" = Ok (PStr sid) /\
       Structure_clean_id (Structure_clean_id sid) = Structure_clean_id sid /\
       is_Some (dict_lookup (Structure_clean_id sid) structures)) ->
  exists pairs w1,
    Connection_links w = (Ok pairs, w1) /\
    Forall2 (λ item pair,
               Device_get item.1 w1 = (Ok pair.1, w1) /\
               exists sid, py_getitem item.2 "structure" = Ok (PStr sid) /\
                           Structure_get sid w1 = (Ok pair.2, w1)) links pairs /\
    Connection_links w1 = (Ok pairs, w1).
Proof.
  intros Hst Hlinks Hdevices Hshared Hstructures Hall.
  assert (forall items w0,
            status (conn w0) = Some st ->
            (forall item, item ∈ items -> item ∈ links) ->
            exists pairs w1,
              for_each link_pair items w0 = (Ok pairs, w1) /\
              Forall2 (linked w1) items pairs) as Hrun.
  { induction items as [|item items IH]; intros w0 H0 Hsub.
    - exists [], w0. split; [reflexivity | constructor].
    - destruct (Hall item (Hsub item (list_elem_of_here _ _)))
        as (Hstable & [d Hd] & [s0 Hs] & sid & Hsid & Hsstable & [x Hx]).
      destruct (Device_get_returns item.1 w0 Hstable) as (a & w' & Hget).
      { rewrite (missing_from_status_dict _ _ _ _ _ H0 Hdevices), Hd. reflexivity. }
      { rewrite (missing_from_status_dict _ _ _ _ _ H0 Hshared), Hs. reflexivity. }
      assert (status (conn w') = Some st) as H0'.
      { pose proof (Device_get_keeps_snapshot item.1 w0) as Hk. rewrite Hget in Hk.
        simpl in Hk. rewrite Hk. exact H0. }
      destruct (Structure_get_returns sid w' Hsstable) as (b & w'' & Hsget).
      { rewrite (missing_from_status_dict _ _ _ _ _ H0' Hstructures), Hx. reflexivity. }
      assert (status (conn w'') = Some st) as H0''.
      { pose proof (Structure_get_keeps_snapshot sid w') as Hk. rewrite Hsget in Hk.
        simpl in Hk. rewrite Hk. exact H0'. }
      destruct (IH w'' H0'') as (pairs & w1 & Hrest & Hpairs).
      { intros i Hi. apply Hsub. apply elem_of_cons. right. exact Hi. }
      assert (link_pair item w0 = (Ok (a, b), w'')) as Hhead.
      { unfold link_pair. rewrite (bind_ok _ _ _ _ _ Hget).
        unfold mbind at 1, M_bind at 1, lift. rewrite Hsid.
        unfold mbind at 1, M_bind at 1. simpl.
        rewrite (bind_ok _ _ _ _ _ Hsget). reflexivity. }
      exists ((a, b) :: pairs), w1. split.
      + simpl. rewrite (bind_ok _ _ _ _ _ Hhead), (bind_ok _ _ _ _ _ Hrest). reflexivity.
      + constructor; [|exact Hpairs].
        apply (linked_extends w'').
        { pose proof (proj1 (grows_for_each link_pair items link_pair_grows w'')) as H.
          rewrite Hrest in H. exact H. }
        exists sid. split; [exact Hsid|]. split.
        * pose proof (proj1 (Structure_get_grows sid w')) as [Hc _].
          rewrite Hsget in Hc.
          exact (Hc KDevice _ _ (proj1 (Device_get_again _ _ _ _ Hstable Hget))).
        * exact (proj1 (Structure_get_again _ _ _ _ Hsstable Hsget)). }
  destruct (Hrun links w Hst (λ _ H, H)) as (pairs & w1 & Hfor & Hpairs).
  assert (forall w0, status (conn w0) = Some st ->
            Connection_links w0 = for_each link_pair links w0) as Hunfold.
  { intros w0 H0. unfold Connection_links.
    unfold mbind at 1, M_bind at 1, read. rewrite H0. simpl.
    unfold mbind at 1, M_bind at 1, lift. rewrite Hlinks. simpl.
    unfold mbind at 1, M_bind at 1. reflexivity. }
  assert (status (conn w1) = Some st) as Hst1.
  { pose proof (keeps_snapshot_for_each link_pair links link_pair_keeps_snapshot w) as H.
    rewrite Hfor in H. simpl in H. rewrite H. exact Hst. }
  exists pairs, w1. split; [|split].
  - rewrite (Hunfold w Hst). exact Hfor.
  - eapply Forall2_impl; [exact Hpairs|].
    intros item pair (sid & Hsid & Hd & Hs). split.
    + pose proof (Device_get_cases item.1 w1) as H. rewrite Hd in H. exact H.
    + exists sid. split; [exact Hsid|].
      pose proof (Structure_get_cases sid w1) as H. rewrite Hs in H. exact H.
  - rewrite (Hunfold w1 Hst1). exact (links_cached links pairs w1 Hpairs).
Qed.

(** *** The text of a structure *)

Lemma string_length_app (a s : string) :
  String.length (a +:+ s) = (String.length a + String.length s)%nat.
Proof.
  induction a as [|c a IH]; [reflexivity|].
  change (String c a +:+ s) with (String c (a +:+ s)). simpl. rewrite IH. reflexivity.
Qed.

Lemma string_app_inj_r (a b s : string) : a +:+ s = b +:+ s -> a = b.
Proof.
  revert b. induction a as [|c a IH]; intros [|c' b] H.
  - reflexivity.
  - change ("" +:+ s) with s in H. apply (f_equal String.length) in H.
    change (String c' b +:+ s) with (String c' (b +:+ s)) in H. simpl in H.
    rewrite string_length_app in H. lia.
  - change ("" +:+ s) with s in H. apply (f_equal String.length) in H.
    change (String c a +:+ s) with (String c (a +:+ s)) in H. simpl in H.
    rewrite string_length_app in H. lia.
  - change (String c (a +:+ s) = String c' (b +:+ s)) in H.
    injection H as -> H. rewrite (IH b H). reflexivity.
Qed.

(** X18.  [Structure.__repr__] tells the structures apart: two
    structures have the same text exactly when they have the same
    (cleaned) id. *)
Theorem Structure_repr_tells_structures_apart (s1 s2 : Structure) :
  Structure_repr s1 = Structure_repr s2 <-> s1 = s2.
Proof.
  split; [|intros ->; reflexivity].
  unfold Structure_repr. intros H.
  apply (inj (String.app "Structure('")) in H.
  apply string_app_inj_r in H.
  destruct s1, s2. simpl in H. rewrite H. reflexivity.
Qed.

End Client.

(** ** The properties on the sample worlds *)

(** The sample world is the world after the login of a new connection. *)
Lemma sample_world_after_login :
  Connection_login format_scalar accepting new_world = (Ok tt, sample_world).
Proof. vm_compute. reflexivity. Qed.


(** C2, counterexample.  The device [01AA] is in the snapshot.  The
    first [Device.get('device.device.01AA')] returns a new instance,
    cached under [01AA]; the second call with the same id cleans it to
    [device.01AA], finds no such key in the cache and runs the
    constructor, which cleans once more and raises [RuntimeError]. *)
Lemma get_twice_with_a_doubled_prefix :
  let first := Device_get "device.device.01AA" sample_world in
  first.1 = Ok 0%nat /\
  heap first.2 = [IDevice sample_device] /\
  Device_get "device.device.01AA" first.2 = (Raise (RuntimeError ""), first.2).
Proof. vm_compute. repeat split; reflexivity. Qed.

(** C2, on the sample world: the world is reachable, [Device.get] with
    the prefixed id returns the instance at address 0, a second call
    returns the same address and changes nothing, constructing the
    device directly once it is cached raises [RuntimeError], and no two
    addresses hold the same instance. *)
Lemma one_instance_per_id_witness :
  let first := Device_get "device.01AA" sample_world in
  reachable format_scalar accepting 1000 first.2 /\
  first.1 = Ok 0%nat /\
  Device_get "device.01AA" first.2 = (Ok 0%nat, first.2) /\
  Device_init "01AA" first.2 = (Raise (RuntimeError ""), first.2) /\
  (forall a b i, heap first.2 !! a = Some i -> heap first.2 !! b = Some i -> a = b).
Proof.
  intros first.
  assert (reachable format_scalar accepting 1000 sample_world) as Hsample.
  { replace sample_world with (run format_scalar accepting 1000 CallLogin new_world)
      by (vm_compute; reflexivity).
    exact (reachable_call format_scalar accepting 1000 new_world CallLogin
             (reachable_new format_scalar accepting 1000 (PStr "me") (PStr "secret"))). }
  assert (reachable format_scalar accepting 1000 first.2) as Hfirst.
  { exact (reachable_call format_scalar accepting 1000 sample_world
             (CallDeviceGet "device.01AA") Hsample). }
  destruct (one_instance_per_id format_scalar accepting 1000 sample_world "device.01AA")
    as (_ & _ & _ & _ & Hdevice & _).
  destruct (Hdevice eq_refl) as [Hreturns Hagain].
  destruct (one_instance_per_id format_scalar accepting 1000 first.2 "01AA")
    as (Hone & _ & _ & _ & _ & _ & _ & Hdirect & _).
  split; [exact Hfirst|].
  assert (first = (Ok 0%nat, first.2)) as Hget by (vm_compute; reflexivity).
  split; [exact (f_equal fst Hget)|].
  split; [exact (proj2 (Hagain 0%nat first.2 Hget))|].
  split; [|exact (Hone Hfirst)].
  apply Hdirect. exists 0%nat. vm_compute. reflexivity.
Defined.


(** C4, on the sample world: [device.fan_mode = 'off'] is refused and
    the world stays as it was. *)
Lemma fan_mode_rejects_other_values_witness :
  Device_fan_mode_setter accepting sample_device (PStr "off") sample_world =
    (Raise (ValueError ("fan mode must be " +:+ dq +:+ "auto" +:+ dq +:+ " or "
                        +:+ dq +:+ "on" +:+ dq)), sample_world).
Proof.
  apply (fan_mode_rejects_other_values accepting sample_device (PStr "off") sample_world);
    discriminate.
Defined.


(** C6, counterexample.  After [Device.get('01AA')] the device instance
    is the object at address 0.  Assigning that object as the target
    temperature raises [TypeError] in [json.dumps]; no request is
    posted. *)
Lemma target_temperature_of_an_instance_is_not_posted :
  let w := (Device_get "01AA" sample_world).2 in
  heap w !! 0%nat = Some (IDevice sample_device) /\
  Device_target_temperature_setter format_scalar accepting 1000 sample_device (PObj 0) w =
    (Raise TypeError, w) /\
  sent (Device_target_temperature_setter format_scalar accepting 1000 sample_device
          (PObj 0) w).2 = sent sample_world.
Proof. vm_compute. repeat split; reflexivity. Qed.

(** C6, on the sample world: [device.target_temperature = 21.5] posts
    the JSON object with the two members, with [X-nl-base-version: 7]
    from the shared section. *)
Lemma target_temperature_posts_json_witness :
  let req :=
    {| method := POST;
       url := "https://transport.example/v2/put/shared.01AA";
       data := BodyJson (JObj [("target_change_pending", JBool true);
                               ("target_temperature", JFloat 43 (-1))]);
       req_headers := <["Content-Type" := PStr "application/json"]>
                      (<["X-nl-base-version" := PStr "7"]> (headers (conn sample_world)))
    |} in
  Device_target_temperature_setter format_scalar accepting 1000 sample_device
    (PFloat 43 (-1)) sample_world = (Ok tt, posted req sample_world).
Proof.
  intros req.
  destruct (target_temperature_posts_json format_scalar accepting 1000
              sample_device (PFloat 43 (-1)) sample_world
              (PDict sample_shared_section) (PInt 7) "https://transport.example"
              eq_refl eq_refl eq_refl) as [Hposts _].
  destruct (Hposts (JFloat 43 (-1)) eq_refl) as [Hrun _].
  exact Hrun.
Defined.

(** C7, counterexample.  The device section has the key [_rev], and
    [Device.__getattr__('_rev')] raises [AttributeError]: the key it
    looks up is [$rev]. *)
Lemma Device_getattr_misses_an_underscore_key :
  let c := conn odd_world in
  Device_device c sample_device = Ok (PDict [("_rev", PInt 3)]) /\
  dict_lookup "_rev" [("_rev", PInt 3)] = Some (PInt 3) /\
  Device_getattr 1000 c sample_device "_rev" = Raise AttributeError.
Proof. vm_compute. repeat split; reflexivity. Qed.

(** C7, on the sample world: [target_temperature] is found in the shared
    section, and [$version], which both sections have, is read from the
    device section. *)
Lemma Device_getattr_device_before_shared_witness :
  Device_getattr 1000 (conn sample_world) sample_device "target_temperature" =
    Ok (PFloat 43 (-1)) /\
  Device_getattr 1000 (conn sample_world) sample_device "$version" = Ok (PInt 1) /\
  Device_getattr 1000 (conn sample_world) sample_device "colour" = Raise AttributeError.
Proof.
  pose proof (fun name =>
    proj1 (Device_getattr_device_before_shared 999 (conn sample_world) sample_device name
             sample_device_section sample_shared_section eq_refl eq_refl)) as H.
  split; [exact (H "target_temperature")|].
  split; [exact (H "$version") | exact (H "colour")].
Defined.


(** C9, counterexample.  On a connection as [Connection.__init__] leaves
    it, [User.get('u1')] returns the user and [user.settings] then ends
    in [RecursionError], not in [AttributeError]: the getter of
    [settings] raises [AttributeError] (no [_user_settings]), so Python
    calls [__getattr__('settings')]; that evaluates [self.user], whose
    getter raises [AttributeError] (no [status]), so Python calls
    [__getattr__('user')], which evaluates [self.user] again, and so on
    until the recursion limit. *)
Lemma settings_on_a_new_connection :
  let w := (User_get "u1" new_world).2 in
  heap w = [IUser sample_user] /\
  status (conn w) = None /\
  User_attr_settings 1000 sample_user w = (Raise RecursionError, w).
Proof. vm_compute. repeat split; reflexivity. Qed.

(** On a connection whose snapshot has a ['settings'] key in the user's
    entry, [user.settings] returns that value. *)
Lemma settings_from_the_snapshot :
  User_attr_settings 1000 sample_user odd_world = (Ok (PStr "mine"), odd_world).
Proof. vm_compute. reflexivity. Qed.

(** C9, on the sample world: the getter fails on the missing cache and
    [user.settings] raises [AttributeError]. *)
Lemma settings_cache_was_never_created_witness :
  UserSettings_get "u1" sample_world = (Raise AttributeError, sample_world) /\
  User_attr_settings 1000 sample_user sample_world = (Raise AttributeError, sample_world).
Proof.
  destruct (settings_cache_was_never_created 1000 sample_user sample_world)
    as (Hget & _ & _ & _ & Hsection & _).
  split; [exact Hget|].
  refine (Hsection [("name", PStr "me"); ("$version", PInt 3)] _ eq_refl).
  lia.
Defined.

(** C10, on the sample world: [_version] reads the [$version] entry of
    each view's section. *)
Lemma underscore_names_read_dollar_keys_witness :
  User_getattr 1000 (conn sample_world) sample_user "_version" = Ok (PInt 3) /\
  UserSettings_getattr 1000 (conn sample_world) sample_user_settings "_version" =
    Ok (PInt 4) /\
  Structure_getattr 1000 (conn sample_world) sample_structure "_version" = Ok (PInt 9) /\
  Device_getattr 1000 (conn sample_world) sample_device "_version" = Ok (PInt 1).
Proof.
  destruct (underscore_names_read_dollar_keys 999 (conn sample_world) "version"
              [("name", PStr "me"); ("$version", PInt 3)] [])
    as (Huser & _ & _ & _).
  destruct (underscore_names_read_dollar_keys 999 (conn sample_world) "version"
              [("lang", PStr "en"); ("$version", PInt 4)] [])
    as (_ & Hsettings & _ & _).
  destruct (underscore_names_read_dollar_keys 999 (conn sample_world) "version"
              sample_structure_section [])
    as (_ & _ & Hstructure & _).
  destruct (underscore_names_read_dollar_keys 999 (conn sample_world) "version"
              sample_device_section sample_shared_section)
    as (_ & _ & _ & Hdevice).
  split; [exact (Huser sample_user eq_refl)|].
  split; [exact (Hsettings sample_user_settings eq_refl)|].
  split; [exact (Hstructure sample_structure eq_refl)|].
  exact (Hdevice sample_device eq_refl eq_refl).
Defined.

(** X1, on the sample world: [Device.get('device.01AA')] is
    [Device.get('01AA')], and [Structure.get('structure.s1')] is
    [Structure.get('s1')]. *)
Lemma prefixed_id_is_the_plain_id_witness :
  Device_get "device.01AA" sample_world = Device_get "01AA" sample_world /\
  Structure_get "structure.s1" sample_world = Structure_get "s1" sample_world.
Proof.
  destruct (prefixed_id_is_the_plain_id "01AA" sample_world) as [Hdevice _].
  destruct (prefixed_id_is_the_plain_id "s1" sample_world) as [_ Hstructure].
  split.
  - exact (proj1 (Hdevice eq_refl)).
  - exact (proj1 (Hstructure eq_refl)).
Defined.

(** X2, on the sample world: [Device.get] returns for the thermostat of
    the snapshot and for no other id, and [Structure.get] returns for
    the structure of the snapshot. *)
Lemma get_returns_exactly_for_known_ids_witness :
  (exists a w1, Device_get "device.01AA" sample_world = (Ok a, w1)) /\
  ~ (exists a w1, Device_get "02BB" sample_world = (Ok a, w1)) /\
  (exists a w1, Structure_get "s1" sample_world = (Ok a, w1)).
Proof.
  destruct (get_returns_exactly_for_known_ids "device.01AA" sample_world) as (Hdevice & _).
  destruct (get_returns_exactly_for_known_ids "02BB" sample_world) as (Hother & _).
  destruct (get_returns_exactly_for_known_ids "s1" sample_world) as (_ & Hstructure & _).
  split; [|split].
  - apply (Hdevice eq_refl). right. split; vm_compute; reflexivity.
  - intros H. apply (Hother eq_refl) in H.
    destruct H as [[a H]|[H _]]; vm_compute in H; discriminate.
  - apply (Hstructure eq_refl). right. vm_compute. reflexivity.
Defined.

(** X3, on the sample worlds: a device and a structure that the
    snapshot does not have raise [KeyError], and so does the second
    thermostat, which has no shared entry, for a name that its device
    entry does not have. *)
Lemma missing_entry_raises_KeyError_witness :
  Device_getattr 1000 (conn sample_world) second_device "fan_mode" = Raise KeyError /\
  Structure_attr_away 1000 (conn sample_world) {| structure_id := "s2" |} = Raise KeyError /\
  Device_getattr 1000 (conn second_world) second_device "target_temperature" =
    Raise KeyError.
Proof.
  destruct (missing_entry_raises_KeyError 1000 999 (conn sample_world) "fan_mode")
    as (_ & _ & Hstructure & Hdevice & _).
  destruct (missing_entry_raises_KeyError 1000 999 (conn second_world) "target_temperature")
    as (_ & _ & _ & _ & Hshared).
  split; [|split].
  - refine (proj1 (Hdevice second_device _)).
    exists sample_status, [("01AA", PDict sample_device_section)].
    repeat split; reflexivity.
  - refine (proj2 (Hstructure {| structure_id := "s2" |} _)).
    exists sample_status, [("s1", PDict sample_structure_section)].
    repeat split; reflexivity.
  - refine (Hshared second_device [("fan_mode", PStr "on")] eq_refl _ eq_refl).
    exists second_status, [("01AA", PDict sample_shared_section)].
    repeat split; reflexivity.
Defined.

(** X4, on the sample worlds: before the login [update_status] raises
    [AttributeError]; after it, a refresh that the service answers with
    another snapshot replaces the snapshot and sends one request. *)
Lemma update_status_replaces_the_snapshot_witness :
  Connection_update_status format_scalar accepting new_world =
    (Raise AttributeError, new_world) /\
  Connection_update_status format_scalar (answering second_status) sample_world =
    (Ok tt,
     {| conn := logged_in second_status;
        heap := [];
        sent := login_requests ++
                [status_request format_scalar (conn sample_world)
                   "https://transport.example" (PStr "u1")] |}).
Proof.
  destruct (update_status_replaces_the_snapshot format_scalar accepting new_world)
    as [Hnew _].
  destruct (update_status_replaces_the_snapshot format_scalar (answering second_status)
              sample_world) as [_ Hsample].
  split.
  - apply Hnew. left. reflexivity.
  - exact (proj1 (Hsample "https://transport.example" (PStr "u1") eq_refl eq_refl)
             second_status eq_refl).
Defined.

(** X5, on the sample worlds: the login of the new connection returns,
    and the connection then has the transport url, the [Authorization]
    header and the snapshot. *)
Lemma login_stores_the_session_witness :
  exists w1,
    Connection_login format_scalar accepting new_world = (Ok tt, w1) /\
    length (sent w1) = 2%nat /\
    transport_url (conn w1) = Some (PStr "https://transport.example") /\
    headers (conn w1) !! "Authorization" = Some (PStr "Basic token") /\
    status (conn w1) = Some sample_status.
Proof.
  destruct (login_stores_the_session format_scalar accepting new_world login_reply
              (PDict [("transport_url", PStr "https://transport.example")])
              (PStr "u1") sample_status "https://transport.example" "token"
              eq_refl eq_refl eq_refl eq_refl eq_refl eq_refl)
    as (w1 & Hrun & Hsent & _ & Hurl & _ & _ & Hheaders & Hstatus & _).
  exists w1. split; [exact Hrun|].
  split; [rewrite Hsent; reflexivity|].
  split; [exact Hurl|].
  split; [rewrite Hheaders; vm_compute; reflexivity | exact Hstatus].
Defined.

(** X6, on the sample worlds: a login whose answer has no user id
    raises [KeyError], and leaves a connection that has the transport
    url and the token but no [Authorization] header and no snapshot. *)
Lemma login_stops_half_way_witness :
  exists w1,
    Connection_login format_scalar (answering short_reply) new_world =
      (Raise KeyError, w1) /\
    transport_url (conn w1) = Some (PStr "https://transport.example") /\
    access_token (conn w1) = Some (PStr "token") /\
    userid (conn w1) = None /\
    headers (conn w1) !! "Authorization" = None /\
    status (conn w1) = None.
Proof.
  destruct (login_stops_half_way format_scalar (answering short_reply) new_world
              short_reply (PDict [("transport_url", PStr "https://transport.example")])
              (PStr "https://transport.example") (PStr "token")
              eq_refl eq_refl eq_refl eq_refl) as [Hshort _].
  destruct (Hshort eq_refl) as (w1 & Hrun & _ & Hurl & Htoken & Huid & Hheaders & Hstatus).
  exists w1. split; [exact Hrun|].
  split; [exact Hurl|]. split; [exact Htoken|]. split; [exact Huid|].
  split; [rewrite Hheaders; vm_compute; reflexivity | exact Hstatus].
Defined.




(** X10, on the sample world: the device cached by [Device.get('01AA')]
    is still what [Device.get] returns after a refresh to a snapshot
    without it, a read of the users and a write. *)
Lemma cached_instances_stay_witness :
  let w := (Device_get "01AA" sample_world).2 in
  let w' := perform_all format_scalar (answering odd_status) 1000
              [Call CallUpdateStatus; GetUsers; Call (ToggleFanMode sample_device)] w in
  Device_get "device.01AA" w' = (Ok 0%nat, w') /\
  heap w' !! 0%nat = Some (IDevice sample_device).
Proof.
  intros w w'.
  destruct (cached_instances_stay format_scalar (answering odd_status) 1000
              [Call CallUpdateStatus; GetUsers; Call (ToggleFanMode sample_device)]
              w "device.01AA" 0%nat) as (_ & Hdevice & _ & Hheap & _).
  split.
  - apply Hdevice. vm_compute. reflexivity.
  - apply Hheap. vm_compute. reflexivity.
Defined.

(** X11, on the sample world: [connection.users] returns a dict with
    the one user of the snapshot. *)
Lemma Connection_users_has_every_user_witness :
  exists result w1,
    Connection_users sample_world = (Ok result, w1) /\
    (forall id, id ∈ result.*1 <->
                is_Some (dict_lookup id [("u1", PDict [("name", PStr "me");
                                                       ("$version", PInt 3)])])) /\
    (forall id a, (id, a) ∈ result -> User_get id w1 = (Ok a, w1)) /\
    Connection_users w1 = (Ok result, w1).
Proof.
  exact (Connection_users_has_every_user sample_world sample_status
           [("u1", PDict [("name", PStr "me"); ("$version", PInt 3)])] eq_refl eq_refl).
Defined.

(** X12, on the sample world: [connection.devices] returns a dict with
    the one thermostat of the snapshot. *)
Lemma Connection_devices_has_every_device_witness :
  exists result w1,
    Connection_devices sample_world = (Ok result, w1) /\
    (forall id, id ∈ result.*1 <->
                is_Some (dict_lookup id [("01AA", PDict sample_device_section)])) /\
    (forall id a, (id, a) ∈ result -> Device_get id w1 = (Ok a, w1)) /\
    Connection_devices w1 = (Ok result, w1).
Proof.
  refine (Connection_devices_has_every_device sample_world sample_status
            [("01AA", PDict sample_device_section)]
            [("01AA", PDict sample_shared_section)] eq_refl eq_refl eq_refl _).
  intros id Hin. apply list_elem_of_singleton in Hin as ->.
  split; [reflexivity | eexists; reflexivity].
Defined.

(** X13, on the second sample world: the thermostat [02BB] has no
    shared entry, and [connection.devices] raises [RuntimeError]. *)
Lemma Connection_devices_needs_every_shared_entry_witness :
  exists w1,
    Connection_devices second_world = (Raise (RuntimeError ""), w1) /\
    extends second_world w1.
Proof.
  refine (Connection_devices_needs_every_shared_entry second_world second_status
            [("01AA", PDict sample_device_section); ("02BB", PDict [("fan_mode", PStr "on")])]
            [("01AA", PDict sample_shared_section)] "02BB"
            eq_refl eq_refl eq_refl _ eq_refl eq_refl _).
  - eexists. reflexivity.
  - vm_compute. reflexivity.
Defined.

(** X14, on the sample worlds: the structure of the thermostat is the
    instance of [s1]; on the second world, where the link names the
    number 5, the access gives what [__getattr__('structure')] gives,
    an [AttributeError]. *)
Lemma Device_structure_follows_the_link_witness :
  (exists a w1,
     Device_attr_structure 1000 sample_device sample_world = (Ok (PObj a), w1) /\
     Structure_get "structure.s1" w1 = (Ok a, w1) /\
     Device_attr_structure 1000 sample_device w1 = (Ok (PObj a), w1)) /\
  Device_attr_structure 1000 sample_device second_world =
    (Raise AttributeError, second_world).
Proof.
  destruct (Device_structure_follows_the_link 1000 sample_device sample_world
              sample_status (PDict [("01AA", PDict [("structure", PStr "structure.s1")])])
              eq_refl eq_refl) as (Hlink & _).
  destruct (Device_structure_follows_the_link 1000 sample_device second_world
              second_status (PDict [("01AA", PDict [("structure", PInt 5)])])
              eq_refl eq_refl) as (_ & _ & Hother).
  split.
  - refine (Hlink (PDict [("structure", PStr "structure.s1")]) "structure.s1"
              eq_refl eq_refl eq_refl _).
    vm_compute. reflexivity.
  - refine (eq_trans (Hother (PDict [("structure", PInt 5)]) (PInt 5) eq_refl eq_refl _ _) _).
    + intros sid. discriminate.
    + intros a. discriminate.
    + vm_compute. reflexivity.
Defined.

(** X15, on the sample world: the structure lists ['device.01AA'], and
    [structure.devices] has the key ['01AA']. *)
Lemma Structure_devices_are_the_cached_devices_witness :
  exists result w1,
    Structure_devices 1000 sample_structure sample_world = (Ok result, w1) /\
    (forall key, key ∈ result.*1 <->
                 exists id, id ∈ ["device.01AA"] /\ key = Device_clean_id id) /\
    (forall key a, (key, a) ∈ result -> Device_get key w1 = (Ok a, w1)) /\
    Structure_devices 1000 sample_structure w1 = (Ok result, w1).
Proof.
  refine (Structure_devices_are_the_cached_devices 1000 sample_structure sample_world
            sample_status (PDict sample_structure_section)
            [("01AA", PDict sample_device_section)]
            [("01AA", PDict sample_shared_section)] ["device.01AA"]
            eq_refl eq_refl eq_refl eq_refl eq_refl _).
  intros id Hin. apply list_elem_of_singleton in Hin as ->.
  split; [reflexivity|]. split; eexists; reflexivity.
Defined.

(** X16, on the second sample world: the user lists ['structure.s1'],
    and [user.structures] has the key ['s1']. *)
Lemma User_structures_are_the_cached_structures_witness :
  exists result w1,
    User_structures sample_user second_world = (Ok result, w1) /\
    (forall key, key ∈ result.*1 <->
                 exists id, id ∈ ["structure.s1"] /\ key = Structure_clean_id id) /\
    (forall key a, (key, a) ∈ result -> Structure_get key w1 = (Ok a, w1)) /\
    User_structures sample_user w1 = (Ok result, w1).
Proof.
  refine (User_structures_are_the_cached_structures sample_user second_world
            second_status
            (PDict [("u1", PDict [("name", PStr "me");
                                  ("structures", PList [PStr "structure.s1"])])])
            (PDict [("name", PStr "me"); ("structures", PList [PStr "structure.s1"])])
            [("s1", PDict sample_structure_section)] ["structure.s1"]
            eq_refl eq_refl eq_refl eq_refl eq_refl _).
  intros id Hin. apply list_elem_of_singleton in Hin as ->.
  split; [reflexivity | eexists; reflexivity].
Defined.

(** X17, on the sample world: [connection.links] returns one pair, the
    thermostat and its structure. *)
Lemma Connection_links_pairs_cached_instances_witness :
  exists pairs w1,
    Connection_links sample_world = (Ok pairs, w1) /\
    Forall2 (λ item pair,
               Device_get item.1 w1 = (Ok pair.1, w1) /\
               exists sid, py_getitem item.2 "structure" = Ok (PStr sid) /\
                           Structure_get sid w1 = (Ok pair.2, w1))
            [("01AA", PDict [("structure", PStr "structure.s1")])] pairs /\
    Connection_links w1 = (Ok pairs, w1).
Proof.
  refine (Connection_links_pairs_cached_instances sample_world sample_status
            [("01AA", PDict [("structure", PStr "structure.s1")])]
            [("01AA", PDict sample_device_section)]
            [("01AA", PDict sample_shared_section)]
            [("s1", PDict sample_structure_section)]
            eq_refl eq_refl eq_refl eq_refl eq_refl _).
  intros item Hin. apply list_elem_of_singleton in Hin as ->.
  split; [reflexivity|]. split; [eexists; reflexivity|]. split; [eexists; reflexivity|].
  exists "structure.s1". split; [reflexivity|]. split; [reflexivity | eexists; reflexivity].
Defined.

(** X18, on the sample structures: [s1] and [s2] have different
    texts. *)
Lemma Structure_repr_tells_structures_apart_witness :
  Structure_repr sample_structure ≠ Structure_repr {| structure_id := "s2" |}.
Proof.
  intros H.
  apply (proj1 (Structure_repr_tells_structures_apart sample_structure
                  {| structure_id := "s2" |})) in H.
  discriminate H.
Defined.
